(** * TripMind: the marketplace aggregation and fallback layer

    A shallow embedding of [backend/services/amadeus.go] and of the search
    orchestration in the handlers package, together with the properties the
    design document states about them.

    Conventions.
    - Go [string] is a byte string: [String.string].  Non-ASCII literals are
      their UTF-8 bytes, as in the Go source file.
    - Go [int] is [Z]; where the source can leave the 64-bit range the
      wrap-around is written out ([wrap64]).
    - Go [float64] is IEEE-754 binary64, taken from the Standard Library's
      executable specification ([SpecFloat], precision 53, emax 1024), with
      round-to-nearest-even on every operation.
    - Calls that leave the process (the clock, the token endpoint, the
      marketplace, the text-generation provider) are nodes of a program tree
      [Prog]; a [World] answers them and [run] records the trace.
    - The programs are those of one goroutine: the mutex around the token
      cache is not modelled.  [http.NewRequest], which fails only on a
      malformed method or URL, is taken to succeed. *)

From Stdlib Require Import ZArith List String Ascii Bool Lia.
From Stdlib Require Import DecimalString.
From Stdlib Require Import Floats.SpecFloat.
Import ListNotations.

Open Scope string_scope.
Open Scope Z_scope.

(* ------------------------------------------------------------------ *)
(** ** binary64 arithmetic *)

Definition float64 : Type := spec_float.

Module F64.

Definition prec : Z := 53.
Definition emax : Z := 1024.

(** [float64(n)] for an integer [n]. *)
Definition of_Z (n : Z) : float64 := binary_normalize prec emax n 0 false.

Definition mul : float64 -> float64 -> float64 := SFmul prec emax.
Definition div : float64 -> float64 -> float64 := SFdiv prec emax.
Definition add : float64 -> float64 -> float64 := SFadd prec emax.
Definition sub : float64 -> float64 -> float64 := SFsub prec emax.

(** Go's [<], [<=] and [>] on float64: false as soon as a NaN is involved. *)
Definition ltb : float64 -> float64 -> bool := SFltb.
Definition leb : float64 -> float64 -> bool := SFleb.
Definition gtb (x y : float64) : bool := SFltb y x.

(** A decimal constant [n / d] of the source text ([1.15] is [dec 115 100]):
    the compiler rounds the exact constant to the nearest binary64, which is
    what one correctly rounded division of two exactly representable
    integers yields. *)
Definition dec (n d : Z) : float64 := div (of_Z n) (of_Z d).

(** [int(x)]: truncation toward zero.  Go leaves the conversion of NaN and
    of infinities to the implementation; they are mapped to 0 here and no
    caller in this development reaches them. *)
Definition to_int (x : float64) : Z :=
  match x with
  | S754_finite s m e =>
      let a := match e with
               | Z0 => Zpos m
               | Zpos p => Zpos m * 2 ^ Zpos p
               | Zneg p => Zpos m / 2 ^ Zpos p
               end in
      if s then - a else a
  | _ => 0
  end.

Definition zero : float64 := S754_zero false.

End F64.

(** Go's 64-bit two's-complement wrap-around. *)
Definition wrap64 (z : Z) : Z := (z + 2 ^ 63) mod 2 ^ 64 - 2 ^ 63.

(* ------------------------------------------------------------------ *)
(** ** The parts of [strings] and [fmt] the services use *)

Module GoStr.

Definition len (s : string) : Z := Z.of_nat (String.length s).

(** [strings.Index(s, substr)]: first byte offset of [substr], or -1. *)
Definition Index (s substr : string) : Z :=
  match String.index 0 substr s with
  | Some i => Z.of_nat i
  | None => -1
  end.

(** [strings.TrimPrefix]. *)
Definition TrimPrefix (s p : string) : string :=
  if String.prefix p s
  then String.substring (String.length p) (String.length s - String.length p) s
  else s.

(** [s[:i]] and [s[i:]] for an offset inside the string. *)
Definition slice_to (s : string) (i : Z) : string :=
  String.substring 0 (Z.to_nat i) s.
Definition slice_from (s : string) (i : Z) : string :=
  String.substring (Z.to_nat i) (String.length s - Z.to_nat i) s.

(** [%d]. *)
Definition itoa (n : Z) : string := NilZero.string_of_int (Z.to_int n).

Fixpoint zeros (n : nat) : string :=
  match n with
  | O => ""
  | S k => String "0" (zeros k)
  end.

(** The decimal digits of [n >= 0] with a point before the last [p]. *)
Definition with_point (n : Z) (p : nat) : string :=
  let ds := itoa n in
  let ds := zeros (S p - String.length ds) ++ ds in
  match p with
  | O => ds
  | S _ =>
      let k := (String.length ds - p)%nat in
      String.substring 0 k ds ++ "." ++ String.substring k p ds
  end.

(** The integer nearest to [num / den], ties to even ([den > 0]). *)
Definition round_half_even (num den : Z) : Z :=
  let q := num / den in
  let r := num mod den in
  match 2 * r ?= den with
  | Lt => q
  | Gt => q + 1
  | Eq => if Z.even q then q else q + 1
  end.

(** [%.pf]: the exact binary value printed with [p] decimals, correctly
    rounded, ties to even; the sign is printed whenever the sign bit is
    set. *)
Definition fixed (p : nat) (x : float64) : string :=
  let sign (s : bool) := if s then "-" else "" in
  match x with
  | S754_nan => "NaN"
  | S754_infinity s => if s then "-Inf" else "+Inf"
  | S754_zero s => sign s ++ with_point 0 p
  | S754_finite s m e =>
      let scale := 10 ^ Z.of_nat p in
      let n := match e with
               | Z0 => Zpos m * scale
               | Zpos k => Zpos m * 2 ^ Zpos k * scale
               | Zneg k => round_half_even (Zpos m * scale) (2 ^ Zpos k)
               end in
      sign s ++ with_point n p
  end.

End GoStr.

(* ------------------------------------------------------------------ *)
(** ** Canonical models *)

Record Flight : Type := mkFlight {
  Price : float64;
  Airline : string;
  AirlineCode : string;
  FlightNumber : string;
  DepartureTime : string;
  ArrivalTime : string;
  Duration : string;
  Stops : Z;
  ReturnDepartureTime : string;
  ReturnArrivalTime : string;
  ReturnDuration : string;
  ReturnStops : Z;
  BookingLink : string;
  Currency : string
}.

Record Hotel : Type := mkHotel {
  Name : string;
  HotelID : string;
  HPrice : float64;
  Rating : float64;
  Location : string;
  HBookingLink : string;
  HCurrency : string
}.

(** The zero values Go gives to a declared and unassigned struct. *)
Definition zeroFlight : Flight :=
  mkFlight F64.zero "" "" "" "" "" "" 0 "" "" "" 0 "" "".
Definition zeroHotel : Hotel :=
  mkHotel "" "" F64.zero F64.zero "" "" "".

(* ------------------------------------------------------------------ *)
(** ** Helpers of amadeus.go *)

(** [parseDuration]: ISO-8601 duration ([PT5H30M]) to [5h 30m]. *)
Definition parseDuration (iso : string) : string :=
  if String.eqb iso "" then ""
  else
    let iso := GoStr.TrimPrefix iso "PT" in
    let result := "" in
    let hIdx := GoStr.Index iso "H" in
    let mIdx := GoStr.Index iso "M" in
    let '(result, iso, mIdx) :=
      if hIdx >=? 0
      then
        let result := result ++ GoStr.slice_to iso hIdx ++ "h" in
        let iso := GoStr.slice_from iso (hIdx + 1) in
        (result, iso, GoStr.Index iso "M")
      else (result, iso, mIdx) in
    if (mIdx >=? 0) && (mIdx <? GoStr.len iso)
    then
      let result := if negb (String.eqb result "") then result ++ " " else result in
      result ++ GoStr.slice_to iso mIdx ++ "m"
    else result.

(** [formatDurationMin]; Go's [/] and [%] truncate toward zero. *)
Definition formatDurationMin (minutes : Z) : string :=
  let h := Z.quot minutes 60 in
  let m := Z.rem minutes 60 in
  if m >? 0
  then GoStr.itoa h ++ "h " ++ GoStr.itoa m ++ "m"
  else GoStr.itoa h ++ "h".

Definition max (a b : Z) : Z := if a >? b then a else b.

(** A Go map literal with string keys, read with the comma-ok form. *)
Fixpoint lookup {V : Type} (key : string) (m : list (string * V)) : option V :=
  match m with
  | [] => None
  | (k, v) :: rest => if String.eqb key k then Some v else lookup key rest
  end.

(** [airportToCity]: airport code to the city code the hotel search wants. *)
Definition airportToCity (airport : string) : string :=
  let mapping :=
    [("LHR", "LON"); ("LGW", "LON"); ("STN", "LON"); ("LTN", "LON");
     ("CDG", "PAR"); ("ORY", "PAR");
     ("JFK", "NYC"); ("LGA", "NYC"); ("EWR", "NYC");
     ("LAX", "LAX");
     ("DXB", "DXB");
     ("IST", "IST");
     ("FRA", "FRA");
     ("AMS", "AMS");
     ("BER", "BER"); ("SXF", "BER");
     ("MAD", "MAD");
     ("BCN", "BCN");
     ("FCO", "ROM"); ("CIA", "ROM");
     ("TAS", "TAS");
     ("NRT", "TYO"); ("HND", "TYO");
     ("SIN", "SIN");
     ("BKK", "BKK")] in
  match lookup airport mapping with
  | Some city => city
  | None => airport
  end.

(** [airlineName]: display name of a carrier code. *)
Definition airlineName (code : string) : string :=
  let names :=
    [("TK", "Turkish Airlines");
     ("LH", "Lufthansa");
     ("AF", "Air France");
     ("BA", "British Airways");
     ("EK", "Emirates");
     ("QR", "Qatar Airways");
     ("PC", "Pegasus Airlines");
     ("FR", "Ryanair");
     ("U2", "EasyJet");
     ("W6", "Wizz Air");
     ("FZ", "FlyDubai");
     ("HY", "Uzbekistan Airways");
     ("UA", "United Airlines");
     ("AA", "American Airlines");
     ("DL", "Delta Air Lines");
     ("KL", "KLM");
     ("IB", "Iberia");
     ("AZ", "ITA Airways");
     ("OS", "Austrian Airlines");
     ("LX", "Swiss International Air Lines");
     ("SQ", "Singapore Airlines");
     ("CX", "Cathay Pacific");
     ("NH", "ANA");
     ("JL", "Japan Airlines");
     ("EY", "Etihad Airways");
     ("SV", "Saudi Arabian Airlines");
     ("MS", "EgyptAir");
     ("RJ", "Royal Jordanian");
     ("ET", "Ethiopian Airlines");
     ("KQ", "Kenya Airways");
     ("SA", "South African Airways")] in
  match lookup code names with
  | Some name => name
  | None => if negb (String.eqb code "") then code ++ " Airlines" else "Unknown Airline"
  end.

(* ------------------------------------------------------------------ *)
(** ** Provider wire formats *)

Record wirePrice : Type := mkWirePrice {
  GrandTotal : string;      (* [grandTotal] of a flight, [total] of a hotel offer *)
  PriceCurrency : string
}.

Record wireEndpoint : Type := mkWireEndpoint {
  IataCode : string;
  At : string
}.

Record wireSegment : Type := mkWireSegment {
  Departure : wireEndpoint;
  Arrival : wireEndpoint;
  CarrierCode : string;
  Number : string
}.

Record wireItinerary : Type := mkWireItinerary {
  ItDuration : string;
  Segments : list wireSegment
}.

Record amadeusFlightOffer : Type := mkFlightOffer {
  OfferPrice : wirePrice;
  Itineraries : list wireItinerary;
  ValidatingAirlineCodes : list string
}.

Record amadeusFlightOffersResponse : Type := mkFlightOffersResponse {
  FlightData : list amadeusFlightOffer
}.

Record wireHotelRef : Type := mkWireHotelRef {
  RefHotelID : string;
  RefName : string;
  RefIATACode : string;
  RefLatitude : float64;
  RefLongitude : float64;
  RefCountryCode : string
}.

Record amadeusHotelListResponse : Type := mkHotelListResponse {
  HotelListData : list wireHotelRef
}.

Record wireHotel : Type := mkWireHotel {
  WHotelID : string;
  WName : string;
  WCityCode : string;
  WAddressLines : list string;
  WCityName : string;
  WCountryCode : string;
  WRating : string
}.

Record wireHotelItem : Type := mkWireHotelItem {
  ItemHotel : wireHotel;
  Available : bool;
  Offers : list wirePrice
}.

Record amadeusHotelOffersResponse : Type := mkHotelOffersResponse {
  HotelOffersData : list wireHotelItem
}.

Record tokenResponse : Type := mkTokenResponse {
  AccessToken : string;
  ExpiresIn : Z
}.

Definition zeroEndpoint : wireEndpoint := mkWireEndpoint "" "".
Definition zeroSegment : wireSegment := mkWireSegment zeroEndpoint zeroEndpoint "" "".
Definition zeroItinerary : wireItinerary := mkWireItinerary "" [].
Definition zeroWirePrice : wirePrice := mkWirePrice "" "".

(** A Go result pair [(value, error)]. *)
Inductive Result (A : Type) : Type :=
| Ok (a : A)
| Err (msg : string).
Arguments Ok {A} a.
Arguments Err {A} msg.

(* ------------------------------------------------------------------ *)
(** ** Library functions the services call

    These belong to the Go standard library, not to the repository; the
    development is parametric in them. *)

Class GoLib : Type := mkGoLib {
  (** [fmt.Sscanf(s, "%f", &x)] started from [x = 0]: the value left in [x]. *)
  Sscanf_f : string -> float64;
  (** [url.QueryEscape]. *)
  QueryEscape : string -> string;
  (** [json.Unmarshal] into each of the four response structures; [None]
      stands for a returned error. *)
  Unmarshal_token : string -> option tokenResponse;
  Unmarshal_flightOffers : string -> option amadeusFlightOffersResponse;
  Unmarshal_hotelList : string -> option amadeusHotelListResponse;
  Unmarshal_hotelOffers : string -> option amadeusHotelOffersResponse;
  (** Calendar instants of package [time]. *)
  Time : Type;
  (** [time.Parse("2006-01-02", s)] with the error dropped, as the fallback
      generator does: the zero instant for a malformed date. *)
  time_Parse : string -> Time;
  (** [time.Date(d.Year(), d.Month(), d.Day(), hour, 0, 0, 0, time.UTC)]. *)
  time_Date : Time -> Z -> Time;
  (** [t.Add(time.Duration(min) * time.Minute)]. *)
  time_Add : Time -> Z -> Time;
  (** [t.Format(time.RFC3339)]. *)
  time_Format : Time -> string
}.

Definition parsePrice `{GoLib} (s : string) : float64 := Sscanf_f s.

Definition parseRating `{GoLib} (s : string) : float64 :=
  if String.eqb s "" then F64.dec 40 10
  else
    let r := Sscanf_f s in
    if F64.leb r F64.zero then F64.dec 40 10
    else if F64.gtb r (F64.of_Z 5) then F64.of_Z 5
    else r.

(* ------------------------------------------------------------------ *)
(** ** Flight offers *)

(** One turn of the loop of [parseFlightOffers]; [None] is [continue]. *)
Definition flightOfOffer `{GoLib} (offer : amadeusFlightOffer) : option Flight :=
  if (Z.of_nat (List.length (Itineraries offer)) <? 1) then None
  else
    let price := parsePrice (GrandTotal (OfferPrice offer)) in
    if F64.leb price F64.zero then None
    else
      let outbound := nth 0 (Itineraries offer) zeroItinerary in
      let returnIt :=
        if Z.of_nat (List.length (Itineraries offer)) >=? 2
        then nth_error (Itineraries offer) 1
        else None in
      let airlineCode :=
        if Z.of_nat (List.length (Segments outbound)) >? 0
        then CarrierCode (nth 0 (Segments outbound) zeroSegment)
        else if Z.of_nat (List.length (ValidatingAirlineCodes offer)) >? 0
        then nth 0 (ValidatingAirlineCodes offer) ""
        else "" in
      let f :=
        {| Price := price;
           Airline := airlineName airlineCode;
           AirlineCode := airlineCode;
           FlightNumber := "";
           DepartureTime := "";
           ArrivalTime := "";
           Duration := parseDuration (ItDuration outbound);
           Stops := max 0 (Z.of_nat (List.length (Segments outbound)) - 1);
           ReturnDepartureTime := "";
           ReturnArrivalTime := "";
           ReturnDuration := "";
           ReturnStops := 0;
           BookingLink := "";
           Currency := PriceCurrency (OfferPrice offer) |} in
      let f :=
        if Z.of_nat (List.length (Segments outbound)) >? 0
        then
          {| Price := Price f; Airline := Airline f; AirlineCode := AirlineCode f;
             FlightNumber := airlineCode ++ Number (nth 0 (Segments outbound) zeroSegment);
             DepartureTime := At (Departure (nth 0 (Segments outbound) zeroSegment));
             ArrivalTime := At (Arrival (last (Segments outbound) zeroSegment));
             Duration := Duration f; Stops := Stops f;
             ReturnDepartureTime := ReturnDepartureTime f;
             ReturnArrivalTime := ReturnArrivalTime f;
             ReturnDuration := ReturnDuration f; ReturnStops := ReturnStops f;
             BookingLink := BookingLink f; Currency := Currency f |}
        else f in
      let f :=
        match returnIt with
        | Some ret =>
            let hasSeg := Z.of_nat (List.length (Segments ret)) >? 0 in
            {| Price := Price f; Airline := Airline f; AirlineCode := AirlineCode f;
               FlightNumber := FlightNumber f;
               DepartureTime := DepartureTime f; ArrivalTime := ArrivalTime f;
               Duration := Duration f; Stops := Stops f;
               ReturnDepartureTime :=
                 if hasSeg then At (Departure (nth 0 (Segments ret) zeroSegment))
                 else ReturnDepartureTime f;
               ReturnArrivalTime :=
                 if hasSeg then At (Arrival (last (Segments ret) zeroSegment))
                 else ReturnArrivalTime f;
               ReturnDuration := parseDuration (ItDuration ret);
               ReturnStops := max 0 (Z.of_nat (List.length (Segments ret)) - 1);
               BookingLink := BookingLink f; Currency := Currency f |}
        | None => f
        end in
      Some f.

(** The loop itself: [flights = append(flights, f)] for each offer kept. *)
Definition collectFlights `{GoLib} (data : list amadeusFlightOffer) : list Flight :=
  fold_left
    (fun flights offer =>
       match flightOfOffer offer with
       | Some f => (flights ++ [f])%list
       | None => flights
       end)
    data [].

Definition parseFlightOffers `{GoLib} (data : string) : Result (list Flight) :=
  match Unmarshal_flightOffers data with
  | None => Err "failed to parse flight offers"
  | Some resp => Ok (collectFlights (FlightData resp))
  end.

(* ------------------------------------------------------------------ *)
(** ** Hotel offers *)

Definition hotelOfItem `{GoLib} (item : wireHotelItem) : option Hotel :=
  if negb (Available item) || (Z.of_nat (List.length (Offers item)) =? 0) then None
  else
    let offer0 := nth 0 (Offers item) zeroWirePrice in
    let price := parsePrice (GrandTotal offer0) in
    if F64.leb price F64.zero then None
    else
      let rating := parseRating (WRating (ItemHotel item)) in
      let location := WCityName (ItemHotel item) in
      let location :=
        if String.eqb location "" then WCityCode (ItemHotel item) else location in
      Some {| Name := WName (ItemHotel item);
              HotelID := WHotelID (ItemHotel item);
              HPrice := price;
              Rating := rating;
              Location := location;
              HBookingLink := "";
              HCurrency := PriceCurrency offer0 |}.

Definition collectHotels `{GoLib} (data : list wireHotelItem) : list Hotel :=
  fold_left
    (fun hotels item =>
       match hotelOfItem item with
       | Some h => (hotels ++ [h])%list
       | None => hotels
       end)
    data [].

(* ------------------------------------------------------------------ *)
(** ** Fallback generators *)

Record routeInfo : Type := mkRouteInfo {
  basePrice : float64;
  duration : Z               (* minutes *)
}.

Record airlineOption : Type := mkAirlineOption {
  name : string;
  priceMod : float64;
  stops : Z
}.

Definition route (p d : Z) : routeInfo := mkRouteInfo (F64.of_Z p) d.

Definition routes : list (string * routeInfo) :=
  [("TAS-IST", route 280 300); ("IST-TAS", route 280 300);
   ("TAS-DXB", route 320 210); ("DXB-TAS", route 320 210);
   ("TAS-FRA", route 450 420); ("FRA-TAS", route 450 420);
   ("TAS-LHR", route 500 480); ("LHR-TAS", route 500 480);
   ("TAS-CDG", route 480 450); ("CDG-TAS", route 480 450);
   ("BER-PAR", route 120 105); ("PAR-BER", route 120 105);
   ("BER-LHR", route 100 100); ("LHR-BER", route 100 100);
   ("IST-DXB", route 250 240); ("DXB-IST", route 250 240);
   ("LHR-JFK", route 450 480); ("JFK-LHR", route 450 480);
   ("LHR-CDG", route 80 75); ("CDG-LHR", route 80 75);
   ("FRA-IST", route 150 165); ("IST-FRA", route 150 165)].

(** Five airline options across price tiers. *)
Definition options : list airlineOption :=
  [mkAirlineOption "Turkish Airlines" (F64.dec 100 100) 0;
   mkAirlineOption "Lufthansa" (F64.dec 115 100) 0;
   mkAirlineOption "Emirates" (F64.dec 130 100) 0;
   mkAirlineOption "Wizz Air" (F64.dec 65 100) 1;
   mkAirlineOption "FlyDubai" (F64.dec 80 100) 1].

(** The route the generator prices: the table entry or the baseline. *)
Definition routeOf (origin destination : string) : routeInfo :=
  let key := origin ++ "-" ++ destination in
  match lookup key routes with
  | Some info => info
  | None => route 350 240
  end.

(** [price = float64(int(price/5)*5)] after [price := basePrice * priceMod]. *)
Definition fallbackPrice (info : routeInfo) (opt : airlineOption) : float64 :=
  let price := F64.mul (basePrice info) (priceMod opt) in
  F64.of_Z (F64.to_int (F64.div price (F64.of_Z 5)) * 5).

Definition fallbackDuration (info : routeInfo) (opt : airlineOption) : Z :=
  let dur := duration info in
  if stops opt >? 0 then dur + 90 else dur.

(** The body of the loop for the option at index [i]. *)
Definition fallbackFlight `{GoLib} (info : routeInfo) (depDate retDate : Time)
    (i : Z) (opt : airlineOption) : Flight :=
  let price := fallbackPrice info opt in
  let dur := fallbackDuration info opt in
  let depHour := 6 + i * 3 in
  let retHour := 8 + i * 2 in
  let depTime := time_Date depDate depHour in
  let arrTime := time_Add depTime dur in
  let retDepTime := time_Date retDate retHour in
  let retArrTime := time_Add retDepTime dur in
  {| Price := price;
     Airline := name opt;
     AirlineCode := "";
     FlightNumber := "";
     DepartureTime := time_Format depTime;
     ArrivalTime := time_Format arrTime;
     Duration := formatDurationMin dur;
     Stops := stops opt;
     ReturnDepartureTime := time_Format retDepTime;
     ReturnArrivalTime := time_Format retArrTime;
     ReturnDuration := formatDurationMin dur;
     ReturnStops := stops opt;
     BookingLink := "";
     Currency := "" |}.

(** [for i, opt := range opts] starting at index [i]. *)
Fixpoint fallbackLoop `{GoLib} (info : routeInfo) (depDate retDate : Time)
    (i : Z) (opts : list airlineOption) (flights : list Flight) : list Flight :=
  match opts with
  | [] => flights
  | opt :: rest =>
      fallbackLoop info depDate retDate (i + 1) rest
        (flights ++ [fallbackFlight info depDate retDate i opt])%list
  end.

Definition GenerateFlightsFallback `{GoLib}
    (origin destination departureDate returnDate : string) : list Flight :=
  let info := routeOf origin destination in
  let depDate := time_Parse departureDate in
  let retDate := time_Parse returnDate in
  fallbackLoop info depDate retDate 0 options [].

Definition hotel (n : string) (p : Z) (r10 : Z) (loc : string) : Hotel :=
  mkHotel n "" (F64.of_Z p) (F64.dec r10 10) loc "" "USD".

Definition cityHotels : list (string * list Hotel) :=
  [("IST",
    [hotel "Grand Hyatt Istanbul" 180 47 "Beyoglu, Istanbul";
     hotel "Hilton Istanbul Bosphorus" 165 45 "Besiktas, Istanbul";
     hotel "Sultan Ahmet Palace Hotel" 95 43 "Sultanahmet, Istanbul";
     hotel "Ibis Istanbul Taksim" 75 40 "Taksim, Istanbul";
     hotel "The Marmara Taksim" 140 44 "Taksim Square, Istanbul"]);
   ("CDG",
    [hotel "Hotel Le Marais" 220 46 "Le Marais, Paris";
     hotel "Pullman Paris Tour Eiffel" 280 45 "7th Arr., Paris";
     hotel "Ibis Paris Montmartre" 95 40 "Montmartre, Paris";
     hotel "Hotel des Arts Montmartre" 130 43 "18th Arr., Paris";
     hotel "Generator Paris" 55 38 "10th Arr., Paris"]);
   ("PAR",
    [hotel "Hotel Le Marais" 220 46 "Le Marais, Paris";
     hotel "Pullman Paris Tour Eiffel" 280 45 "7th Arr., Paris";
     hotel "Ibis Paris Montmartre" 95 40 "Montmartre, Paris";
     hotel "Hotel des Arts Montmartre" 130 43 "18th Arr., Paris"]);
   ("LHR",
    [hotel "Hilton London Tower Bridge" 180 44 "Tower Bridge, London";
     hotel "Premier Inn London City" 95 41 "City of London";
     hotel "The Hoxton Shoreditch" 165 45 "Shoreditch, London";
     hotel "Generator London" 50 38 "Russell Square, London";
     hotel "citizenM London Bankside" 145 44 "Bankside, London"]);
   ("DXB",
    [hotel "JW Marriott Marquis" 220 46 "Business Bay, Dubai";
     hotel "Rove Downtown" 95 43 "Downtown Dubai";
     hotel "Premier Inn Dubai" 65 40 "Ibn Battuta, Dubai";
     hotel "Atlantis The Palm" 380 47 "Palm Jumeirah, Dubai";
     hotel "Hilton Dubai Al Habtoor City" 160 44 "Dubai Marina"]);
   ("FRA",
    [hotel "Marriott Frankfurt City Center" 155 44 "Sachsenhausen, Frankfurt";
     hotel "Motel One Frankfurt-Römer" 89 43 "Römer, Frankfurt";
     hotel "Hilton Frankfurt City Centre" 175 45 "City Centre, Frankfurt";
     hotel "Generator Frankfurt" 45 39 "Sachsenhausen, Frankfurt";
     hotel "Steigenberger Frankfurter Hof" 280 46 "Kaiserplatz, Frankfurt"]);
   ("BER",
    [hotel "Hotel Adlon Kempinski" 320 48 "Mitte, Berlin";
     hotel "Radisson Blu Berlin" 150 44 "Alexanderplatz, Berlin";
     hotel "Motel One Berlin Hackescher Markt" 85 42 "Mitte, Berlin";
     hotel "Generator Berlin Mitte" 45 39 "Mitte, Berlin";
     hotel "Michelberger Hotel" 130 45 "Friedrichshain, Berlin"])].

(** The generic list, its locations templated with the destination. *)
Definition genericHotels (destination : string) : list Hotel :=
  [hotel "Grand City Hotel" 150 45 ("City Center, " ++ destination);
   hotel "Business Inn" 95 42 ("Business District, " ++ destination);
   hotel "Boutique Residence" 120 44 ("Arts District, " ++ destination);
   hotel "Economy Suites" 65 39 ("Near Airport, " ++ destination);
   hotel "Luxury Collection" 240 47 ("Historic Center, " ++ destination)].

Definition GenerateHotelsFallback (destination : string) : list Hotel :=
  match lookup destination cityHotels with
  | Some hotels => hotels
  | None => genericHotels destination
  end.

(* ------------------------------------------------------------------ *)
(** ** The deterministic recommendation *)

(** [for _, f := range flights { if f.Price < cheapest.Price { cheapest = f } }] *)
Definition cheapestFlightOf (flights : list Flight) (first : Flight) : Flight :=
  fold_left (fun cheapest f => if F64.ltb (Price f) (Price cheapest) then f else cheapest)
            flights first.

Definition bestValueHotelOf (hotels : list Hotel) (first : Hotel) : Hotel :=
  fold_left (fun best h => if F64.ltb (HPrice h) (HPrice best) then h else best)
            hotels first.

Definition unableMessage : string := "Unable to provide recommendations at this time.".

Definition FallbackRecommendation (budget : float64) (flights : list Flight)
    (hotels : list Hotel) (numNights : Z) : string :=
  if (Z.of_nat (List.length flights) =? 0) || (Z.of_nat (List.length hotels) =? 0)
  then unableMessage
  else
    let cheapestFlight := cheapestFlightOf flights (nth 0 flights zeroFlight) in
    let bestValueHotel := bestValueHotelOf hotels (nth 0 hotels zeroHotel) in
    let total :=
      F64.add (Price cheapestFlight)
              (F64.mul (HPrice bestValueHotel) (F64.of_Z numNights)) in
    let withinBudget :=
      if F64.leb total budget
      then " This combination fits your $" ++ GoStr.fixed 0 budget ++ " budget."
      else " Note: This exceeds your $" ++ GoStr.fixed 0 budget ++ " budget by $"
           ++ GoStr.fixed 0 (F64.sub total budget) ++ "." in
    "Best value picks: " ++ Airline cheapestFlight
    ++ " at $" ++ GoStr.fixed 0 (Price cheapestFlight)
    ++ " (" ++ GoStr.fixed 0 (F64.of_Z (Stops cheapestFlight)) ++ " stops) and "
    ++ Name bestValueHotel
    ++ " at $" ++ GoStr.fixed 0 (HPrice bestValueHotel)
    ++ "/night (★ " ++ GoStr.fixed 1 (Rating bestValueHotel) ++ "). "
    ++ "Estimated total: $" ++ GoStr.fixed 0 total
    ++ " for flight + " ++ GoStr.itoa numNights ++ " nights." ++ withinBudget.

(* ------------------------------------------------------------------ *)
(** ** Programs that talk to the outside *)

Inductive HttpResult : Type :=
| TransportErr (msg : string)             (* [httpClient.Do] returned an error *)
| HttpResp (status : Z) (body : string).

(** The calls that leave the process, indexed by what they return. *)
Inductive Call : Type -> Type :=
| TimeNow : Call Z                        (* [time.Now()], in nanoseconds *)
| TokenPost (url clientID clientSecret : string) : Call HttpResult
| AmadeusDo (method url token : string) (body : option string) : Call HttpResult
| GetRecommendations (budget : float64)
    (origin destination departureDate returnDate : string) (passengers : Z)
    (flights : list Flight) (hotels : list Hotel) (isFallbackData : bool)
    : Call (Result string).

Inductive Prog (A : Type) : Type :=
| Ret (a : A)
| Do {R : Type} (c : Call R) (k : R -> Prog A).
Arguments Ret {A} a.
Arguments Do {A R} c k.

Fixpoint bind {A B : Type} (p : Prog A) (f : A -> Prog B) : Prog B :=
  match p with
  | Ret a => f a
  | Do c k => Do c (fun r => bind (k r) f)
  end.

Notation "x <- p ;; q" := (bind p (fun x => q))
  (at level 61, p at next level, right associativity).
Notation "' pat <- p ;; q" := (bind p (fun x => match x with pat => q end))
  (at level 61, pat pattern, p at next level, right associativity).

(** One call together with the answer it got. *)
Inductive Event : Type :=
| Ev {R : Type} (c : Call R) (r : R).

(** The outside: an answer for every call, given everything seen so far. *)
Definition World : Type := list Event -> forall R : Type, Call R -> R.

Fixpoint run {A : Type} (w : World) (hist : list Event) (p : Prog A) : A * list Event :=
  match p with
  | Ret a => (a, hist)
  | Do c k =>
      let r := w hist _ c in
      run w (hist ++ [Ev c r])%list (k r)
  end.

Definition isTokenPost (e : Event) : bool :=
  match e with
  | Ev (TokenPost _ _ _) _ => true
  | _ => false
  end.

Definition isAmadeusDo (e : Event) : bool :=
  match e with
  | Ev (AmadeusDo _ _ _ _) _ => true
  | _ => false
  end.

(* ------------------------------------------------------------------ *)
(** ** Credential session *)

Record AmadeusClient : Type := mkClient {
  clientID : string;
  clientSecret : string;
  baseURL : string;
  accessToken : string;
  tokenExpiry : Z            (* an instant, in nanoseconds on the clock of [TimeNow] *)
}.

Definition Second : Z := 1000000000.

(** [t.Add(d)]: instants are unbounded here; [d] is an int64 [time.Duration]. *)
Definition timeAdd (t d : Z) : Z := t + d.
(** [t.After(u)]. *)
Definition timeAfter (t u : Z) : bool := t >? u.

(** [time.Duration(n) * time.Second] in int64 arithmetic. *)
Definition seconds (n : Z) : Z := wrap64 (n * Second).

Definition storeToken (c : AmadeusClient) (tok : string) (expiry : Z) : AmadeusClient :=
  {| clientID := clientID c; clientSecret := clientSecret c; baseURL := baseURL c;
     accessToken := tok; tokenExpiry := expiry |}.

Definition refreshToken `{GoLib} (c : AmadeusClient) : Prog (AmadeusClient * option string) :=
  Do (TokenPost (baseURL c ++ "/v1/security/oauth2/token") (clientID c) (clientSecret c))
     (fun resp =>
        match resp with
        | TransportErr msg => Ret (c, Some msg)
        | HttpResp status body =>
            if negb (status =? 200)
            then Ret (c, Some ("token request failed (" ++ GoStr.itoa status ++ "): " ++ body))
            else
              match Unmarshal_token body with
              | None => Ret (c, Some "failed to parse token response")
              | Some result =>
                  Do TimeNow
                     (fun now =>
                        Ret (storeToken c (AccessToken result)
                               (timeAdd now (seconds (wrap64 (ExpiresIn result - 30)))),
                             None))
              end
        end).

Definition getToken `{GoLib} (c : AmadeusClient) : Prog (AmadeusClient * Result string) :=
  Do TimeNow
     (fun now =>
        let expired := timeAfter now (tokenExpiry c) in
        let token := accessToken c in
        if expired || String.eqb token ""
        then
          '(c, err) <- refreshToken c ;;
          match err with
          | Some e => Ret (c, Err e)
          | None => Ret (c, Ok (accessToken c))
          end
        else Ret (c, Ok token)).

Definition doRequest `{GoLib} (c : AmadeusClient) (method path : string)
    (body : option string) : Prog (AmadeusClient * Result string) :=
  '(c, tok) <- getToken c ;;
  match tok with
  | Err e => Ret (c, Err ("auth failed: " ++ e))
  | Ok token =>
      Do (AmadeusDo method (baseURL c ++ path) token body)
         (fun resp =>
            match resp with
            | TransportErr msg => Ret (c, Err msg)
            | HttpResp status respBody =>
                if (status <? 200) || (status >=? 300)
                then Ret (c, Err ("amadeus error (" ++ GoStr.itoa status ++ "): " ++ respBody))
                else Ret (c, Ok respBody)
            end)
  end.

(* ------------------------------------------------------------------ *)
(** ** Marketplace client *)

Definition SearchFlights `{GoLib} (c : AmadeusClient)
    (origin destination departureDate returnDate : string) (adults : Z)
    : Prog (AmadeusClient * Result (list Flight)) :=
  if String.eqb (clientID c) "" then Ret (c, Err "amadeus not configured")
  else
    let path :=
      "/v2/shopping/flight-offers?originLocationCode=" ++ QueryEscape origin
      ++ "&destinationLocationCode=" ++ QueryEscape destination
      ++ "&departureDate=" ++ QueryEscape departureDate
      ++ "&returnDate=" ++ QueryEscape returnDate
      ++ "&adults=" ++ GoStr.itoa adults ++ "&max=6&currencyCode=USD" in
    '(c, body) <- doRequest c "GET" path None ;;
    match body with
    | Err e => Ret (c, Err ("flight search failed: " ++ e))
    | Ok body => Ret (c, parseFlightOffers body)
    end.

Definition getHotelIDsByCity `{GoLib} (c : AmadeusClient) (cityCode : string)
    : Prog (AmadeusClient * Result (list string)) :=
  let hotelCityCode := airportToCity cityCode in
  let path :=
    "/v1/reference-data/locations/hotels/by-city?cityCode=" ++ QueryEscape hotelCityCode
    ++ "&radius=5&radiusUnit=KM&hotelSource=ALL" in
  '(c, body) <- doRequest c "GET" path None ;;
  match body with
  | Err e => Ret (c, Err e)
  | Ok body =>
      match Unmarshal_hotelList body with
      | None => Ret (c, Err "failed to parse hotel list")
      | Some resp => Ret (c, Ok (map RefHotelID (HotelListData resp)))
      end
  end.

(** [strings.Join]. *)
Fixpoint Join (elems : list string) (sep : string) : string :=
  match elems with
  | [] => ""
  | [e] => e
  | e :: rest => e ++ sep ++ Join rest sep
  end.

Definition getHotelOffers `{GoLib} (c : AmadeusClient) (hotelIDs : list string)
    (checkIn checkOut : string) (adults : Z)
    : Prog (AmadeusClient * Result (list Hotel)) :=
  let path :=
    "/v3/shopping/hotel-offers?hotelIds=" ++ QueryEscape (Join hotelIDs ",")
    ++ "&checkInDate=" ++ QueryEscape checkIn
    ++ "&checkOutDate=" ++ QueryEscape checkOut
    ++ "&adults=" ++ GoStr.itoa adults
    ++ "&roomQuantity=1&currency=USD&bestRateOnly=true" in
  '(c, body) <- doRequest c "GET" path None ;;
  match body with
  | Err e => Ret (c, Err ("hotel offers failed: " ++ e))
  | Ok body =>
      match Unmarshal_hotelOffers body with
      | None => Ret (c, Err "failed to parse hotel offers")
      | Some resp => Ret (c, Ok (collectHotels (HotelOffersData resp)))
      end
  end.

Definition SearchHotels `{GoLib} (c : AmadeusClient)
    (cityCode checkIn checkOut : string) (adults : Z)
    : Prog (AmadeusClient * Result (list Hotel)) :=
  if String.eqb (clientID c) "" then Ret (c, Err "amadeus not configured")
  else
    '(c, ids) <- getHotelIDsByCity c cityCode ;;
    match ids with
    | Err e => Ret (c, Err ("hotel list failed: " ++ e))
    | Ok hotelIDs =>
        if Z.of_nat (List.length hotelIDs) =? 0
        then Ret (c, Err ("no hotels found for city " ++ cityCode))
        else
          let hotelIDs :=
            if Z.of_nat (List.length hotelIDs) >? 20 then firstn 20 hotelIDs else hotelIDs in
          getHotelOffers c hotelIDs checkIn checkOut adults
    end.

(* ------------------------------------------------------------------ *)
(** ** Search orchestration (handlers package) *)

Record SearchRequest : Type := mkSearchRequest {
  Origin : string;
  Destination : string;
  DepartureDate : string;
  ReturnDate : string;
  Budget : float64;
  Passengers : Z
}.

Record SearchResponse : Type := mkSearchResponse {
  Flights : list Flight;
  Hotels : list Hotel;
  AISummary : string;
  Source : string            (* "live" or "estimated" *)
}.

(** What the flight leg of [SearchHandler] leaves behind: the client with its
    token cache, the flights and [isFallback]. *)
Definition flightLeg `{GoLib} (amadeusClient : option AmadeusClient) (req : SearchRequest)
    : Prog (option AmadeusClient * list Flight * bool) :=
  match amadeusClient with
  | Some c =>
      '(c, res) <- SearchFlights c (Origin req) (Destination req)
                     (DepartureDate req) (ReturnDate req) (Passengers req) ;;
      match res with
      | Err _ =>
          Ret (Some c,
               GenerateFlightsFallback (Origin req) (Destination req)
                 (DepartureDate req) (ReturnDate req),
               true)
      | Ok liveFlights =>
          if Z.of_nat (List.length liveFlights) =? 0
          then Ret (Some c,
                    GenerateFlightsFallback (Origin req) (Destination req)
                      (DepartureDate req) (ReturnDate req),
                    true)
          else Ret (Some c, liveFlights, false)
      end
  | None =>
      Ret (None,
           GenerateFlightsFallback (Origin req) (Destination req)
             (DepartureDate req) (ReturnDate req),
           true)
  end.

(** The hotel leg, entered with the [isFallback] of the flight leg. *)
Definition hotelLeg `{GoLib} (amadeusClient : option AmadeusClient) (req : SearchRequest)
    (isFallback : bool) : Prog (option AmadeusClient * list Hotel * bool) :=
  match amadeusClient, negb isFallback with
  | Some c, true =>
      '(c, res) <- SearchHotels c (Destination req)
                     (DepartureDate req) (ReturnDate req) (Passengers req) ;;
      match res with
      | Err _ => Ret (Some c, GenerateHotelsFallback (Destination req), true)
      | Ok liveHotels =>
          if Z.of_nat (List.length liveHotels) =? 0
          then Ret (Some c, GenerateHotelsFallback (Destination req), true)
          else Ret (Some c, liveHotels, isFallback)
      end
  | _, _ =>
      (* [hotels] is still nil here, so the generator always runs *)
      Ret (amadeusClient, GenerateHotelsFallback (Destination req), true)
  end.

(** [SearchHandler] from the first marketplace call to the recommendation;
    [numNights] is the number the handler derived from the two dates. *)
Definition SearchHandler `{GoLib} (amadeusClient : option AmadeusClient)
    (req : SearchRequest) (numNights : Z) : Prog (option AmadeusClient * SearchResponse) :=
  '(amadeusClient, flights, isFallback) <- flightLeg amadeusClient req ;;
  '(amadeusClient, hotels, isFallback) <- hotelLeg amadeusClient req isFallback ;;
  let source := if isFallback then "estimated" else "live" in
  Do (GetRecommendations (Budget req) (Origin req) (Destination req)
        (DepartureDate req) (ReturnDate req) (Passengers req)
        flights hotels isFallback)
     (fun ai =>
        let aiSummary :=
          match ai with
          | Ok text => text
          | Err _ => FallbackRecommendation (Budget req) flights hotels numNights
          end in
        Ret (amadeusClient,
             {| Flights := flights; Hotels := hotels;
                AISummary := aiSummary; Source := source |})).

(* ------------------------------------------------------------------ *)
(** * A concrete library, for running the model

    Package [time] on the proleptic Gregorian calendar in UTC, a scanner for
    plain decimal numerals, percent-encoding, and decoders that know a few
    fixed response bodies.  The properties below hold for every [GoLib]; this
    one serves to evaluate the services on concrete inputs. *)

Module Example.

Definition isLeap (y : Z) : bool :=
  (y mod 4 =? 0) && (negb (y mod 100 =? 0) || (y mod 400 =? 0)).

Definition daysIn (m y : Z) : Z :=
  if m =? 2 then (if isLeap y then 29 else 28)
  else if (m =? 4) || (m =? 6) || (m =? 9) || (m =? 11) then 30 else 31.

(** Days since 1970-01-01 of a calendar date, and back. *)
Definition daysFromCivil (y m d : Z) : Z :=
  let y := if m <=? 2 then y - 1 else y in
  let era := y / 400 in
  let yoe := y - era * 400 in
  let doy := (153 * (if m >? 2 then m - 3 else m + 9) + 2) / 5 + d - 1 in
  let doe := yoe * 365 + yoe / 4 - yoe / 100 + doy in
  era * 146097 + doe - 719468.

Definition civilFromDays (z : Z) : Z * Z * Z :=
  let z := z + 719468 in
  let era := z / 146097 in
  let doe := z - era * 146097 in
  let yoe := (doe - doe / 1460 + doe / 36524 - doe / 146096) / 365 in
  let doy := doe - (365 * yoe + yoe / 4 - yoe / 100) in
  let mp := (5 * doy + 2) / 153 in
  let d := doy - (153 * mp + 2) / 5 + 1 in
  let m := if mp <? 10 then mp + 3 else mp - 9 in
  (if m <=? 2 then yoe + era * 400 + 1 else yoe + era * 400, m, d).

Definition digitOf (c : ascii) : option Z :=
  let n := Z.of_nat (nat_of_ascii c) in
  if (48 <=? n) && (n <=? 57) then Some (n - 48) else None.

Fixpoint numberFrom (s : string) (acc : Z) : option Z :=
  match s with
  | "" => Some acc
  | String c rest =>
      match digitOf c with
      | Some d => numberFrom rest (acc * 10 + d)
      | None => None
      end
  end.

Definition number (s : string) : option Z :=
  match s with
  | "" => None
  | _ => numberFrom s 0
  end.

(** Instants are seconds since 1970-01-01T00:00:00Z. *)
Definition zeroTime : Z := daysFromCivil 1 1 1 * 86400.

Definition parseDate (s : string) : Z :=
  if negb (Nat.eqb (String.length s) 10) then zeroTime
  else
    match number (String.substring 0 4 s), number (String.substring 5 2 s),
          number (String.substring 8 2 s) with
    | Some y, Some m, Some d =>
        if String.eqb (String.substring 4 1 s) "-"
           && String.eqb (String.substring 7 1 s) "-"
           && (1 <=? m) && (m <=? 12) && (1 <=? d) && (d <=? daysIn m y)
        then daysFromCivil y m d * 86400
        else zeroTime
    | _, _, _ => zeroTime
    end.

Definition dateAt (t hour : Z) : Z := t / 86400 * 86400 + hour * 3600.

Definition addMinutes (t minutes : Z) : Z := t + minutes * 60.

Definition pad (width : nat) (n : Z) : string :=
  GoStr.zeros (width - String.length (GoStr.itoa n)) ++ GoStr.itoa n.

Definition formatRFC3339 (t : Z) : string :=
  let '(y, m, d) := civilFromDays (t / 86400) in
  let s := t mod 86400 in
  pad 4 y ++ "-" ++ pad 2 m ++ "-" ++ pad 2 d ++ "T"
  ++ pad 2 (s / 3600) ++ ":" ++ pad 2 (s mod 3600 / 60) ++ ":" ++ pad 2 (s mod 60) ++ "Z".

(** A signed decimal numeral with an optional fraction; anything else leaves
    the zero the variable started with. *)
Definition scanFloat (s : string) : float64 :=
  let '(neg, body) :=
    match s with
    | String "-" rest => (true, rest)
    | String "+" rest => (false, rest)
    | _ => (false, s)
    end in
  let '(whole, frac) :=
    match String.index 0 "." body with
    | Some i =>
        (String.substring 0 i body,
         String.substring (S i) (String.length body - S i) body)
    | None => (body, "")
    end in
  match number whole, numberFrom frac 0 with
  | Some a, Some b =>
      let k := Z.of_nat (String.length frac) in
      let n := a * 10 ^ k + b in
      F64.dec (if neg then - n else n) (10 ^ k)
  | _, _ => F64.zero
  end.

Definition hexDigit (n : Z) : string :=
  String.substring (Z.to_nat n) 1 "0123456789ABCDEF".

Definition unreserved (c : ascii) : bool :=
  let n := Z.of_nat (nat_of_ascii c) in
  ((48 <=? n) && (n <=? 57)) || ((65 <=? n) && (n <=? 90)) || ((97 <=? n) && (n <=? 122))
  || (n =? 45) || (n =? 95) || (n =? 46) || (n =? 126).

Fixpoint queryEscape (s : string) : string :=
  match s with
  | "" => ""
  | String c rest =>
      let n := Z.of_nat (nat_of_ascii c) in
      (if unreserved c then String c ""
       else if n =? 32 then "+"
       else "%" ++ hexDigit (n / 16) ++ hexDigit (n mod 16))
      ++ queryEscape rest
  end.

Definition segment (from to dep arr carrier num : string) : wireSegment :=
  mkWireSegment (mkWireEndpoint from dep) (mkWireEndpoint to arr) carrier num.

(** Two offers: a round trip with one stop on the way out, and one without
    itineraries. *)
Definition offers : list amadeusFlightOffer :=
  [mkFlightOffer (mkWirePrice "412.30" "USD")
     [mkWireItinerary "PT7H15M"
        [segment "TAS" "IST" "2025-03-01T06:00:00" "2025-03-01T09:10:00" "TK" "371";
         segment "IST" "LHR" "2025-03-01T10:40:00" "2025-03-01T13:15:00" "TK" "1979"];
      mkWireItinerary "PT6H"
        [segment "LHR" "TAS" "2025-03-08T21:00:00" "2025-03-09T08:00:00" "HY" "202"]]
     ["TK"];
   mkFlightOffer (mkWirePrice "99.00" "USD") [] ["LH"]].

Definition hotelItems : list wireHotelItem :=
  [mkWireHotelItem (mkWireHotel "HLLON001" "Park Inn" "LON" [] "London" "GB" "4")
     true [mkWirePrice "130.00" "USD"];
   mkWireHotelItem (mkWireHotel "HLLON002" "Closed House" "LON" [] "" "GB" "")
     false [mkWirePrice "90.00" "USD"]].

Definition decodeToken (body : string) : option tokenResponse :=
  if String.eqb body "token-1799" then Some (mkTokenResponse "tok-A" 1799) else None.

Definition decodeFlightOffers (body : string) : option amadeusFlightOffersResponse :=
  if String.eqb body "flight-offers" then Some (mkFlightOffersResponse offers)
  else if String.eqb body "no-data" then Some (mkFlightOffersResponse [])
  else None.

Definition decodeHotelList (body : string) : option amadeusHotelListResponse :=
  if String.eqb body "hotel-list"
  then Some (mkHotelListResponse
               [mkWireHotelRef "HLLON001" "Park Inn" "LON" F64.zero F64.zero "GB";
                mkWireHotelRef "HLLON002" "Closed House" "LON" F64.zero F64.zero "GB"])
  else if String.eqb body "no-data" then Some (mkHotelListResponse [])
  else None.

Definition decodeHotelOffers (body : string) : option amadeusHotelOffersResponse :=
  if String.eqb body "hotel-offers" then Some (mkHotelOffersResponse hotelItems)
  else if String.eqb body "no-data" then Some (mkHotelOffersResponse [])
  else None.

Definition lib : GoLib :=
  {| Sscanf_f := scanFloat;
     QueryEscape := queryEscape;
     Unmarshal_token := decodeToken;
     Unmarshal_flightOffers := decodeFlightOffers;
     Unmarshal_hotelList := decodeHotelList;
     Unmarshal_hotelOffers := decodeHotelOffers;
     Time := Z;
     time_Parse := parseDate;
     time_Date := dateAt;
     time_Add := addMinutes;
     time_Format := formatRFC3339 |}.

(** A world with a fixed clock, one answer from the token endpoint, one from
    each of the three marketplace endpoints, and one from the text
    generator. *)
Definition world (now : Z) (post flightsResp listResp offersResp : HttpResult)
    (ai : Result string) : World :=
  fun _ R call =>
    match call in Call T return T with
    | TimeNow => now
    | TokenPost _ _ _ => post
    | AmadeusDo _ url _ _ =>
        if GoStr.Index url "/v2/shopping/flight-offers" >=? 0 then flightsResp
        else if GoStr.Index url "/hotels/by-city" >=? 0 then listResp
        else offersResp
    | GetRecommendations _ _ _ _ _ _ _ _ _ => ai
    end.

Definition ok (body : string) : HttpResult := HttpResp 200 body.
Definition noKey : Result string := Err "huggingface API key not configured".

(** Everything answers. *)
Definition liveWorld : World :=
  world 0 (ok "token-1799") (ok "flight-offers") (ok "hotel-list") (ok "hotel-offers") noKey.

(** Flights answer, the hotel offers come back empty. *)
Definition hotelsEmptyWorld : World :=
  world 0 (ok "token-1799") (ok "flight-offers") (ok "hotel-list") (ok "no-data") noKey.

(** The flight search fails although hotels would answer. *)
Definition flightsDownWorld : World :=
  world 0 (ok "token-1799") (HttpResp 500 "oops") (ok "hotel-list") (ok "hotel-offers") noKey.

Definition client : AmadeusClient :=
  mkClient "id" "secret" "https://test.api.amadeus.com" "" 0.

Definition request : SearchRequest :=
  mkSearchRequest "TAS" "LHR" "2025-03-01" "2025-03-08" (F64.of_Z 1500) 1.

(** A clock showing [t] seconds. *)
Definition clockAt (t : Z) : World :=
  world (t * Second) (TransportErr "offline") (TransportErr "offline")
    (TransportErr "offline") (TransportErr "offline") noKey.

(** The token endpoint answers at second 1000 with a lifetime of 1799 s. *)
Definition issuingWorld : World :=
  world (1000 * Second) (ok "token-1799") (TransportErr "offline")
    (TransportErr "offline") (TransportErr "offline") noKey.

End Example.

(* ------------------------------------------------------------------ *)
(** * Vocabulary of the statements *)

(** ** Hotels and flights of the fallback *)

Definition hotelInBounds (h : Hotel) : Prop :=
  F64.ltb F64.zero (HPrice h) = true
  /\ F64.leb F64.zero (Rating h) = true
  /\ F64.leb (Rating h) (F64.of_Z 5) = true.

Definition allRoutes : list routeInfo := route 350 240 :: map snd routes.

(** The pricing rule in the words of the design document, in exact
    arithmetic: base price times the multiplier (in hundredths), rounded down
    to the nearest 5. *)
Definition documentedPrice (base percent : Z) : Z := base * percent / 500 * 5.

Definition percents : list Z := [100; 115; 130; 65; 80].

(** ** Sample data *)

Definition sampleFlight (price : Z) (airline : string) (nstops : Z) : Flight :=
  mkFlight (F64.of_Z price) airline "" "" "" "" "" nstops "" "" "" 0 "" "".

Definition scenarioFlights : list Flight :=
  [sampleFlight 500 "Alpha Air" 0; sampleFlight 300 "Beta Air" 1].

Definition scenarioHotels : list Hotel :=
  [hotel "Hotel One" 100 40 "Centre"; hotel "Hotel Two" 80 35 "Harbour"].

(** ** Reading an offer *)

(** An offer is dropped for having no itinerary or a parsed price [<= 0]. *)
Definition discardsOffer `{GoLib} (offer : amadeusFlightOffer) : bool :=
  (Z.of_nat (List.length (Itineraries offer)) =? 0)
  || F64.leb (parsePrice (GrandTotal (OfferPrice offer))) F64.zero.

Definition returnLegAbsent (f : Flight) : Prop :=
  ReturnDepartureTime f = "" /\ ReturnArrivalTime f = ""
  /\ ReturnDuration f = "" /\ ReturnStops f = 0.

(** How a leg is read from an itinerary: duration, stop count, and the
    timestamps of the first departure and the last arrival. *)
Definition legFrom (it : wireItinerary) (dur : string) (nstops : Z) (depAt arrAt : string)
    : Prop :=
  dur = parseDuration (ItDuration it)
  /\ nstops = Z.max 0 (Z.of_nat (List.length (Segments it)) - 1)
  /\ match Segments it with
     | [] => depAt = "" /\ arrAt = ""
     | first :: _ =>
         depAt = At (Departure first)
         /\ arrAt = At (Arrival (last (Segments it) zeroSegment))
     end.

Definition flightFromOffer `{GoLib} (offer : amadeusFlightOffer) (f : Flight) : Prop :=
  match Itineraries offer with
  | [] => False
  | outbound :: others =>
      Price f = parsePrice (GrandTotal (OfferPrice offer))
      /\ legFrom outbound (Duration f) (Stops f) (DepartureTime f) (ArrivalTime f)
      /\ match others with
         | [] => returnLegAbsent f
         | ret :: _ =>
             legFrom ret (ReturnDuration f) (ReturnStops f)
               (ReturnDepartureTime f) (ReturnArrivalTime f)
         end
  end.

(** ** Traces and lookups *)

Definition refreshAttempted (tr : list Event) : bool := existsb isTokenPost tr.

(** A lookup resolved live: no error and at least one result. *)
Definition resolvedLive {A : Type} (res : Result (list A)) : bool :=
  match res with
  | Ok (_ :: _) => true
  | _ => false
  end.

(** The list a leg keeps: the live one when the lookup resolved live. *)
Definition liveOr {A : Type} (res : Result (list A)) (fallback : list A) : list A :=
  match res with
  | Ok (x :: l) => x :: l
  | _ => fallback
  end.

Definition flightLookup `{GoLib} (c : AmadeusClient) (req : SearchRequest)
    : Prog (AmadeusClient * Result (list Flight)) :=
  SearchFlights c (Origin req) (Destination req)
    (DepartureDate req) (ReturnDate req) (Passengers req).

Definition hotelLookup `{GoLib} (c : AmadeusClient) (req : SearchRequest)
    : Prog (AmadeusClient * Result (list Hotel)) :=
  SearchHotels c (Destination req) (DepartureDate req) (ReturnDate req) (Passengers req).

Definition flightsFallback `{GoLib} (req : SearchRequest) : list Flight :=
  GenerateFlightsFallback (Origin req) (Destination req)
    (DepartureDate req) (ReturnDate req).

(** The flight lookup of this request resolved live. *)
Definition flightsLive `{GoLib} (w : World) (client : option AmadeusClient)
    (req : SearchRequest) : bool :=
  match client with
  | None => false
  | Some c => resolvedLive (snd (fst (run w [] (flightLookup c req))))
  end.

(** The hotel lookup, issued in the state the flight leg leaves, resolves
    live. *)
Definition hotelsLive `{GoLib} (w : World) (client : option AmadeusClient)
    (req : SearchRequest) : bool :=
  let r1 := run w [] (flightLeg client req) in
  match fst (fst (fst r1)) with
  | None => false
  | Some c => resolvedLive (snd (fst (run w (snd r1) (hotelLookup c req))))
  end.

(* ------------------------------------------------------------------ *)
(** * More of the services *)

(** ** The prompt of the text generator (AI client) *)

Definition newline : string := String (ascii_of_nat 10) "".
Definition dquote : string := String (ascii_of_nat 34) "".

(** The first loop of [buildPrompt], entered at index [i]; leaving the
    recursion at [i >= 5] is the [break]. *)
Fixpoint promptFlightLines (i : Z) (flights : list Flight) (prompt : string) : string :=
  match flights with
  | [] => prompt
  | f :: rest =>
      if i >=? 5 then prompt
      else
        promptFlightLines (i + 1) rest
          (prompt ++ "  " ++ GoStr.itoa (i + 1) ++ ". " ++ Airline f ++ " â€” $"
           ++ GoStr.fixed 0 (Price f) ++ " (" ++ GoStr.itoa (Stops f) ++ " stop(s), "
           ++ Duration f ++ ")" ++ newline)
  end.

Fixpoint promptHotelLines (i : Z) (hotels : list Hotel) (prompt : string) : string :=
  match hotels with
  | [] => prompt
  | h :: rest =>
      if i >=? 5 then prompt
      else
        promptHotelLines (i + 1) rest
          (prompt ++ "  " ++ GoStr.itoa (i + 1) ++ ". " ++ Name h ++ " â€” $"
           ++ GoStr.fixed 0 (HPrice h) ++ "/night (â˜…" ++ GoStr.fixed 1 (Rating h) ++ ") "
           ++ Location h ++ newline)
  end.

Definition promptHead (budget : float64)
    (origin destination departureDate returnDate : string) (passengers : Z)
    (isFallbackData : bool) : string :=
  let dataNote :=
    if isFallbackData
    then " Note: prices are estimated â€” real-time data unavailable."
    else "" in
  "[INST] You are a helpful travel assistant. Analyze these options and give brief, honest recommendations."
  ++ newline ++ newline
  ++ "Trip: " ++ origin ++ " â†’ " ++ destination ++ " | " ++ departureDate
  ++ " to " ++ returnDate ++ " | " ++ GoStr.itoa passengers
  ++ " passenger(s) | Budget: $" ++ GoStr.fixed 0 budget ++ dataNote
  ++ newline ++ newline ++ "Flights available:" ++ newline.

Definition promptTail : string :=
  newline
  ++ "In 150 words or fewer, recommend the best flight and hotel that fit the budget. Explain why briefly. Use sections: "
  ++ dquote ++ "âœˆ Flight:" ++ dquote ++ " and " ++ dquote ++ "ğŸ¨ Hotel:" ++ dquote
  ++ ". Be direct. [/INST]".

Definition buildPrompt (budget : float64)
    (origin destination departureDate returnDate : string) (passengers : Z)
    (flights : list Flight) (hotels : list Hotel) (isFallbackData : bool) : string :=
  let prompt :=
    promptHead budget origin destination departureDate returnDate passengers isFallbackData in
  let prompt := promptFlightLines 0 flights prompt in
  let prompt := prompt ++ newline ++ "Hotels (per night):" ++ newline in
  let prompt := promptHotelLines 0 hotels prompt in
  prompt ++ promptTail.

(** ** Selecting the offers of an itinerary (handlers package) *)

(** The bounds check of [GenerateHandler] on a selected index. *)
Definition clampIndex (selected len : Z) : Z :=
  if (selected <? 0) || (selected >=? len) then 0 else selected.

(** [xs[i]]; [None] is the run-time panic of an index out of range. *)
Definition indexAt {A : Type} (xs : list A) (i : Z) : option A :=
  if (i <? 0) || (i >=? Z.of_nat (List.length xs)) then None
  else nth_error xs (Z.to_nat i).

(** From the decoded lists to the selected pair and its total cost. *)
Definition selectOffers (flights : list Flight) (hotels : list Hotel)
    (selectedFlightIndex selectedHotelIndex numNights : Z)
    : option (Flight * Hotel * float64) :=
  let selectedFlightIndex :=
    clampIndex selectedFlightIndex (Z.of_nat (List.length flights)) in
  let selectedHotelIndex :=
    clampIndex selectedHotelIndex (Z.of_nat (List.length hotels)) in
  match indexAt flights selectedFlightIndex with
  | None => None
  | Some selectedFlight =>
      match indexAt hotels selectedHotelIndex with
      | None => None
      | Some selectedHotel =>
          let totalCost :=
            F64.add (Price selectedFlight)
                    (F64.mul (HPrice selectedHotel) (F64.of_Z numNights)) in
          Some (selectedFlight, selectedHotel, totalCost)
      end
  end.

(** ** Start-up of the marketplace client *)

(** The zero [time.Time], 0001-01-01T00:00:00Z, on a clock that counts from
    the Unix epoch. *)
Definition zeroInstant : Z := - 62135596800 * Second.

(** [InitAmadeus], given the environment; the result is the client the
    package variable then points to.  Log lines are left out. *)
Definition InitAmadeus `{GoLib} (Getenv : string -> string) : Prog AmadeusClient :=
  let env := Getenv "AMADEUS_ENV" in
  let baseURL := "https://api.amadeus.com" in
  let baseURL :=
    if String.eqb env "" || String.eqb env "test"
    then "https://test.api.amadeus.com" else baseURL in
  let amadeusClient :=
    {| clientID := Getenv "AMADEUS_CLIENT_ID";
       clientSecret := Getenv "AMADEUS_CLIENT_SECRET";
       baseURL := baseURL;
       accessToken := "";
       tokenExpiry := zeroInstant |} in
  if String.eqb (clientID amadeusClient) "" || String.eqb (clientSecret amadeusClient) ""
  then Ret amadeusClient
  else
    '(amadeusClient, _) <- refreshToken amadeusClient ;;
    Ret amadeusClient.

(* ------------------------------------------------------------------ *)
(** * Further vocabulary *)

(** ** The order of binary64 *)

(** Where a number sits on the line: its class, then exponent, then
    mantissa. *)
Definition rank (x : float64) : Z * Z * Z :=
  match x with
  | S754_nan => (0, 0, 0)
  | S754_infinity true => (1, 0, 0)
  | S754_finite true m e => (2, - e, - Zpos m)
  | S754_zero _ => (3, 0, 0)
  | S754_finite false m e => (4, e, Zpos m)
  | S754_infinity false => (5, 0, 0)
  end.

Definition lexlt (a b : Z * Z * Z) : Prop :=
  let '(a1, a2, a3) := a in
  let '(b1, b2, b3) := b in
  a1 < b1 \/ (a1 = b1 /\ (a2 < b2 \/ (a2 = b2 /\ a3 < b3))).

Definition isNaN (x : float64) : bool :=
  match x with
  | S754_nan => true
  | _ => false
  end.

(** ** The carrier of an offer *)

(** The carrier of the first outbound segment; without segments the first
    validating airline; without either, the empty code. *)
Definition carrierOf (offer : amadeusFlightOffer) : string :=
  match Segments (nth 0 (Itineraries offer) zeroItinerary) with
  | first :: _ => CarrierCode first
  | [] =>
      match ValidatingAirlineCodes offer with
      | code :: _ => code
      | [] => ""
      end
  end.

Definition flightIdentity (offer : amadeusFlightOffer) (f : Flight) : Prop :=
  AirlineCode f = carrierOf offer
  /\ Airline f = airlineName (carrierOf offer)
  /\ Airline f <> ""
  /\ FlightNumber f
     = match Segments (nth 0 (Itineraries offer) zeroItinerary) with
       | first :: _ => carrierOf offer ++ Number first
       | [] => ""
       end
  /\ Currency f = PriceCurrency (OfferPrice offer)
  /\ BookingLink f = ""
  /\ F64.leb (Price f) F64.zero = false
  /\ 0 <= Stops f
  /\ 0 <= ReturnStops f.

(** ** Reading a hotel item *)

(** An item is dropped when it is not available, has no offer, or the parsed
    price of its first offer is [<= 0]. *)
Definition discardsItem `{GoLib} (item : wireHotelItem) : bool :=
  negb (Available item)
  || (Z.of_nat (List.length (Offers item)) =? 0)
  || F64.leb (parsePrice (GrandTotal (nth 0 (Offers item) zeroWirePrice))) F64.zero.

Definition hotelFromItem `{GoLib} (item : wireHotelItem) (h : Hotel) : Prop :=
  Name h = WName (ItemHotel item)
  /\ HotelID h = WHotelID (ItemHotel item)
  /\ HPrice h = parsePrice (GrandTotal (nth 0 (Offers item) zeroWirePrice))
  /\ F64.leb (HPrice h) F64.zero = false
  /\ HCurrency h = PriceCurrency (nth 0 (Offers item) zeroWirePrice)
  /\ Location h = (if String.eqb (WCityName (ItemHotel item)) ""
                   then WCityCode (ItemHotel item)
                   else WCityName (ItemHotel item))
  /\ Rating h = parseRating (WRating (ItemHotel item))
  /\ F64.leb (Rating h) F64.zero = false
  /\ F64.gtb (Rating h) (F64.of_Z 5) = false.

(** One turn of the two selection loops of [FallbackRecommendation]. *)
Definition keep_cheaper {A : Type} (key : A -> float64) (best x : A) : A :=
  if F64.ltb (key x) (key best) then x else best.

(** ** What a program may do *)

(** Every run of the program makes at most [n] calls of the kind [P]. *)
Inductive AtMost (P : Event -> bool) {A : Type} : nat -> Prog A -> Prop :=
| AtMostRet (n : nat) (a : A) : AtMost P n (Ret a)
| AtMostSkip (n : nat) {R : Type} (c : Call R) (k : R -> Prog A) :
    (forall r, P (Ev c r) = false) -> (forall r, AtMost P n (k r)) ->
    AtMost P n (Do c k)
| AtMostCount (n : nat) {R : Type} (c : Call R) (k : R -> Prog A) :
    (forall r, AtMost P n (k r)) -> AtMost P (S n) (Do c k).

(** As long as every answer satisfies [assume], the program makes only calls
    that satisfy [allow], and every result it returns satisfies [post]. *)
Inductive Obeys (assume : forall R : Type, Call R -> R -> Prop)
    (allow : Event -> Prop) {A : Type} (post : A -> Prop) : Prog A -> Prop :=
| ObeysRet (a : A) : post a -> Obeys assume allow post (Ret a)
| ObeysDo {R : Type} (c : Call R) (k : R -> Prog A) :
    (forall r, assume R c r -> allow (Ev c r)) ->
    (forall r, assume R c r -> Obeys assume allow post (k r)) ->
    Obeys assume allow post (Do c k).

Definition anyAnswer : forall R : Type, Call R -> R -> Prop := fun _ _ _ => True.
Definition anyCall : Event -> Prop := fun _ => True.

(** The clock never shows an instant after [limit]. *)
Definition clockUpTo (limit : Z) : forall R : Type, Call R -> R -> Prop :=
  fun R c =>
    match c in Call T return T -> Prop with
    | TimeNow => fun now => now <= limit
    | _ => fun _ => True
    end.

(** No token exchange, and every marketplace request carries [token]. *)
Definition usesCachedToken (token : string) (e : Event) : Prop :=
  match e with
  | Ev (TokenPost _ _ _) _ => False
  | Ev (AmadeusDo _ _ t _) _ => t = token
  | _ => True
  end.

Definition countCalls (P : Event -> bool) (tr : list Event) : nat :=
  List.length (filter P tr).

Definition isTimeNow (e : Event) : bool :=
  match e with
  | Ev TimeNow _ => true
  | _ => false
  end.

Definition isGetRecommendations (e : Event) : bool :=
  match e with
  | Ev (GetRecommendations _ _ _ _ _ _ _ _ _) _ => true
  | _ => false
  end.

(** Same credentials and base URL; only the token cache may differ. *)
Definition sameIdentity (c c' : AmadeusClient) : Prop :=
  clientID c' = clientID c /\ clientSecret c' = clientSecret c /\ baseURL c' = baseURL c.

(** The client an operation hands back is the one it was given, up to the
    token cache. *)
Definition keepsIdentity {X : Type} (client : option AmadeusClient)
    (res : option AmadeusClient * X) : Prop :=
  match client, fst res with
  | Some c, Some c' => sameIdentity c c'
  | None, None => True
  | _, _ => False
  end.

(** ** More sample data *)

(** The example library with a provider that grants ten seconds. *)
Definition shortLivedLib : GoLib :=
  {| Sscanf_f := Example.scanFloat;
     QueryEscape := Example.queryEscape;
     Unmarshal_token :=
       fun body =>
         if String.eqb body "token-10" then Some (mkTokenResponse "tok-B" 10) else None;
     Unmarshal_flightOffers := Example.decodeFlightOffers;
     Unmarshal_hotelList := Example.decodeHotelList;
     Unmarshal_hotelOffers := Example.decodeHotelOffers;
     Time := Z;
     time_Parse := Example.parseDate;
     time_Date := Example.dateAt;
     time_Add := Example.addMinutes;
     time_Format := Example.formatRFC3339 |}.

(** An environment with the given marketplace settings and nothing else. *)
Definition envOf (env id secret : string) : string -> string :=
  fun key =>
    if String.eqb key "AMADEUS_ENV" then env
    else if String.eqb key "AMADEUS_CLIENT_ID" then id
    else if String.eqb key "AMADEUS_CLIENT_SECRET" then secret
    else "".

(* ------------------------------------------------------------------ *)
(** * Properties *)

(** ** Byte strings *)

Lemma substring_whole (s : string) : String.substring 0 (String.length s) s = s.
Proof.
  induction s as [|a s IH]; simpl; [reflexivity | now rewrite IH].
Qed.

Lemma substring_app_head (h r : string) :
  String.substring 0 (String.length h) (h ++ r) = h.
Proof.
  induction h as [|a h IH]; simpl.
  - destruct r; reflexivity.
  - now rewrite IH.
Qed.

Lemma substring_app_tail (h r : string) :
  String.substring (String.length h) (String.length r) (h ++ r) = r.
Proof.
  induction h as [|a h IH]; simpl; [apply substring_whole | exact IH].
Qed.

Lemma str_length_app (h r : string) :
  String.length (h ++ r) = (String.length h + String.length r)%nat.
Proof.
  induction h as [|a h IH]; simpl; [reflexivity | now rewrite IH].
Qed.

Lemma app_assoc_str (a b c : string) : (a ++ b) ++ c = a ++ b ++ c.
Proof.
  induction a as [|x a IH]; simpl; [reflexivity | now rewrite IH].
Qed.

Lemma app_nonempty (h : string) (c : ascii) (r : string) :
  String.eqb (h ++ String c r) "" = false.
Proof. destruct h; reflexivity. Qed.

(** Searching a one-byte needle past a prefix that does not hold it. *)
Lemma index1_app (c : ascii) (h r : string) :
  String.index 0 (String c "") h = None ->
  String.index 0 (String c "") (h ++ r) =
  option_map (Nat.add (String.length h)) (String.index 0 (String c "") r).
Proof.
  induction h as [|a h IH]; intros Hh.
  - simpl. destruct (String.index 0 (String c "") r); reflexivity.
  - simpl in Hh. simpl.
    destruct (ascii_dec c a) as [->|Hne].
    + destruct h; discriminate Hh.
    + destruct (String.index 0 (String c "") h) eqn:E; [discriminate Hh|].
      rewrite IH by reflexivity.
      destruct (String.index 0 (String c "") r); reflexivity.
Qed.

Lemma Index_absent (s sub : string) :
  GoStr.Index s sub = -1 <-> String.index 0 sub s = None.
Proof.
  unfold GoStr.Index. destruct (String.index 0 sub s); split; intros E;
    try reflexivity; try discriminate; lia.
Qed.

Lemma Index1_app (c : ascii) (h r : string) :
  GoStr.Index h (String c "") = -1 ->
  GoStr.Index (h ++ r) (String c "") =
  if GoStr.Index r (String c "") <? 0 then -1
  else GoStr.len h + GoStr.Index r (String c "").
Proof.
  intros Hh. apply Index_absent in Hh.
  unfold GoStr.Index, GoStr.len. rewrite (index1_app c h r Hh).
  destruct (String.index 0 (String c "") r) as [n|]; simpl.
  - destruct (Z.ltb_spec (Z.of_nat n) 0); lia.
  - reflexivity.
Qed.

Lemma Index1_here (c : ascii) (r : string) : GoStr.Index (String c r) (String c "") = 0.
Proof.
  unfold GoStr.Index. simpl. destruct (ascii_dec c c) as [_|N]; [|now elim N].
  destruct r; reflexivity.
Qed.

Lemma slice_to_app (h r : string) : GoStr.slice_to (h ++ r) (GoStr.len h) = h.
Proof.
  unfold GoStr.slice_to, GoStr.len. rewrite Nat2Z.id. apply substring_app_head.
Qed.

Lemma slice_from_app (h r : string) : GoStr.slice_from (h ++ r) (GoStr.len h) = r.
Proof.
  unfold GoStr.slice_from, GoStr.len. rewrite Nat2Z.id, str_length_app.
  replace (String.length h + String.length r - String.length h)%nat
    with (String.length r) by lia.
  apply substring_app_tail.
Qed.

Lemma TrimPrefix_PT (s : string) : GoStr.TrimPrefix ("PT" ++ s) "PT" = s.
Proof.
  unfold GoStr.TrimPrefix. simpl.
  destruct s as [|a s]; simpl; [reflexivity|].
  now rewrite substring_whole.
Qed.

(** ** [parseDuration] *)

Lemma len_snoc (s : string) (c : ascii) : GoStr.len (s ++ String c "") = GoStr.len s + 1.
Proof. unfold GoStr.len. rewrite str_length_app. simpl. lia. Qed.

Lemma len_nonneg (s : string) : 0 <= GoStr.len s.
Proof. unfold GoStr.len. lia. Qed.

Lemma slice_from_after (h : string) (c : ascii) (r : string) :
  GoStr.slice_from (h ++ String c r) (GoStr.len h + 1) = r.
Proof.
  rewrite <- (len_snoc h c).
  replace (h ++ String c r) with ((h ++ String c "") ++ r)
    by (rewrite app_assoc_str; reflexivity).
  apply slice_from_app.
Qed.

(** The text before the first [H] becomes the hour part, and what follows is
    searched for [M]. *)
Lemma parseDuration_with_H (h r : string) :
  GoStr.Index h "H" = -1 ->
  parseDuration ("PT" ++ h ++ String "H" r) =
  if (GoStr.Index r "M" >=? 0) && (GoStr.Index r "M" <? GoStr.len r)
  then h ++ "h " ++ GoStr.slice_to r (GoStr.Index r "M") ++ "m"
  else h ++ "h".
Proof.
  intros Hh. unfold parseDuration.
  change (String.eqb ("PT" ++ h ++ String "H" r) "") with false.
  cbv iota. rewrite TrimPrefix_PT.
  rewrite (Index1_app "H" h _ Hh), Index1_here.
  change (0 <? 0) with false. cbv iota. rewrite Z.add_0_r.
  pose proof (len_nonneg h) as Hn.
  destruct (Z.geb_spec (GoStr.len h) 0) as [_|Hneg]; [|lia].
  rewrite slice_to_app, slice_from_after.
  change ("" ++ h ++ "h") with (h ++ "h").
  destruct ((GoStr.Index r "M" >=? 0) && (GoStr.Index r "M" <? GoStr.len r)).
  - rewrite app_nonempty. simpl negb. cbv iota.
    rewrite !app_assoc_str. reflexivity.
  - reflexivity.
Qed.

(** Without an [H] only the minute part remains. *)
Lemma parseDuration_without_H (m : string) :
  GoStr.Index m "H" = -1 ->
  GoStr.Index m "M" = -1 ->
  parseDuration ("PT" ++ m ++ "M") = m ++ "m".
Proof.
  intros Hh Hm. unfold parseDuration.
  change (String.eqb ("PT" ++ m ++ "M") "") with false.
  cbv iota. rewrite TrimPrefix_PT.
  rewrite (Index1_app "H" m _ Hh), (Index1_app "M" m _ Hm), Index1_here.
  change (GoStr.Index "M" "H") with (-1).
  change (-1 <? 0) with true. change (0 <? 0) with false. cbv iota.
  change (-1 >=? 0) with false. cbv iota. rewrite Z.add_0_r, len_snoc.
  pose proof (len_nonneg m) as Hn.
  destruct (Z.geb_spec (GoStr.len m) 0) as [_|Hneg]; [|lia].
  destruct (Z.ltb_spec (GoStr.len m) (GoStr.len m + 1)) as [_|Hneg]; [|lia].
  simpl. now rewrite slice_to_app.
Qed.

(** C5, the literal reading refuted: an hour part written as zero is copied
    through, not omitted. *)
Lemma parseDuration_keeps_zero_hours :
  parseDuration "PT0H30M" = "0h 30m" /\ parseDuration "PT0H30M" <> "30m".
Proof. split; [reflexivity | discriminate]. Qed.

(** C5 (amended): [parseDuration] strips a leading [PT], copies the text
    before the first [H] followed by [h], then the text before the next [M]
    followed by [m], the two separated by one space.  A part is left out
    exactly when its designator letter is missing from the input; a part that
    is written, even as zero, is copied.  The four documented examples hold. *)
Theorem parseDuration_components (h m : string) :
  GoStr.Index h "H" = -1 ->
  GoStr.Index m "H" = -1 ->
  GoStr.Index m "M" = -1 ->
  parseDuration "" = ""
  /\ parseDuration "PT5H30M" = "5h 30m"
  /\ parseDuration "PT2H" = "2h"
  /\ parseDuration "PT45M" = "45m"
  /\ parseDuration ("PT" ++ h ++ "H" ++ m ++ "M") = h ++ "h " ++ m ++ "m"
  /\ parseDuration ("PT" ++ h ++ "H") = h ++ "h"
  /\ parseDuration ("PT" ++ m ++ "M") = m ++ "m".
Proof.
  intros Hh HmH HmM.
  repeat split; try reflexivity.
  - change ("H" ++ m ++ "M") with (String "H" (m ++ "M")).
    rewrite (parseDuration_with_H h (m ++ "M") Hh).
    rewrite (Index1_app "M" m "M" HmM), Index1_here.
    change (0 <? 0) with false. cbv iota. rewrite Z.add_0_r, len_snoc.
    pose proof (len_nonneg m) as Hn.
    destruct (Z.geb_spec (GoStr.len m) 0) as [_|Hneg]; [|lia].
    destruct (Z.ltb_spec (GoStr.len m) (GoStr.len m + 1)) as [_|Hneg]; [|lia].
    simpl andb. cbv iota. now rewrite slice_to_app.
  - exact (parseDuration_with_H h "" Hh).
  - exact (parseDuration_without_H m HmH HmM).
Qed.

(** The components lemma at hours "12" and minutes "05". *)
Lemma parseDuration_components_witness :
  parseDuration ("PT" ++ "12" ++ "H" ++ "05" ++ "M") = "12" ++ "h " ++ "05" ++ "m"
  /\ parseDuration ("PT" ++ "12" ++ "H") = "12" ++ "h"
  /\ parseDuration ("PT" ++ "05" ++ "M") = "05" ++ "m".
Proof.
  destruct (parseDuration_components "12" "05") as (_ & _ & _ & _ & A & B & C);
    try reflexivity.
  exact (conj A (conj B C)).
Defined.

(** ** Table lookups *)

Lemma lookup_In {V : Type} (key : string) (m : list (string * V)) (v : V) :
  lookup key m = Some v -> In (key, v) m.
Proof.
  induction m as [|[k x] m IH]; simpl; [discriminate|].
  destruct (String.eqb_spec key k) as [->|_].
  - intros [= ->]. now left.
  - intros E. right. now apply IH.
Qed.

(** ** Hotel fallback *)

Lemma genericHotels_in_bounds (destination : string) :
  Forall hotelInBounds (genericHotels destination).
Proof. repeat constructor. Qed.

Lemma cityHotels_in_bounds :
  Forall (fun entry => Forall hotelInBounds (snd entry)) cityHotels.
Proof. repeat constructor. Qed.

Lemma GenerateHotelsFallback_in_bounds (destination : string) :
  Forall hotelInBounds (GenerateHotelsFallback destination).
Proof.
  unfold GenerateHotelsFallback.
  destruct (lookup destination cityHotels) as [hs|] eqn:E.
  - apply lookup_In in E.
    pose proof cityHotels_in_bounds as All.
    rewrite Forall_forall in All. exact (All _ E).
  - apply genericHotels_in_bounds.
Qed.

Lemma GenerateHotelsFallback_nonempty (destination : string) :
  GenerateHotelsFallback destination <> [].
Proof.
  unfold GenerateHotelsFallback.
  destruct (lookup destination cityHotels) as [hs|] eqn:E.
  - apply lookup_In in E. simpl in E.
    repeat (destruct E as [E|E]; [injection E as _ <-; discriminate|]).
    contradiction.
  - discriminate.
Qed.

(** The Paris entry filed under [PAR] is the [CDG] list without its last
    hotel. *)
Lemma GenerateHotelsFallback_PAR :
  List.length (GenerateHotelsFallback "PAR") = 4%nat
  /\ GenerateHotelsFallback "PAR" = removelast (GenerateHotelsFallback "CDG").
Proof. split; reflexivity. Qed.

(** C1, refuted as stated: for a destination outside the catalog the hotel
    names are constants that do not mention the destination. *)
Lemma GenerateHotelsFallback_names_fixed :
  map Name (GenerateHotelsFallback "XYZ") =
    ["Grand City Hotel"; "Business Inn"; "Boutique Residence";
     "Economy Suites"; "Luxury Collection"]
  /\ Forall (fun h => GoStr.Index (Name h) "XYZ" = -1) (GenerateHotelsFallback "XYZ").
Proof. split; [reflexivity | repeat constructor]. Qed.

(** C1 (amended): for every destination code other than [PAR] the generator
    returns exactly 5 offers, each with price > 0 and rating in [0,5]: the
    catalog's list when the destination is a catalog key, otherwise five
    generic entries with fixed names whose locations end with the destination
    code. *)
Theorem GenerateHotelsFallback_five (destination : string) :
  destination <> "PAR" ->
  List.length (GenerateHotelsFallback destination) = 5%nat
  /\ Forall hotelInBounds (GenerateHotelsFallback destination)
  /\ match lookup destination cityHotels with
     | Some hotels => GenerateHotelsFallback destination = hotels
     | None =>
         map Name (GenerateHotelsFallback destination) =
           ["Grand City Hotel"; "Business Inn"; "Boutique Residence";
            "Economy Suites"; "Luxury Collection"]
         /\ map Location (GenerateHotelsFallback destination) =
           ["City Center, " ++ destination; "Business District, " ++ destination;
            "Arts District, " ++ destination; "Near Airport, " ++ destination;
            "Historic Center, " ++ destination]
     end.
Proof.
  intros NotPAR. split; [|split].
  - unfold GenerateHotelsFallback.
    destruct (lookup destination cityHotels) as [hs|] eqn:E; [|reflexivity].
    apply lookup_In in E. simpl in E.
    repeat (destruct E as [E|E];
            [injection E as <- <-; first [reflexivity | now elim NotPAR]|]).
    contradiction.
  - apply GenerateHotelsFallback_in_bounds.
  - unfold GenerateHotelsFallback.
    destruct (lookup destination cityHotels); [reflexivity | split; reflexivity].
Qed.

(** The catalog entry of Istanbul. *)
Lemma GenerateHotelsFallback_five_witness :
  List.length (GenerateHotelsFallback "IST") = 5%nat
  /\ Forall hotelInBounds (GenerateHotelsFallback "IST").
Proof.
  destruct (GenerateHotelsFallback_five "IST") as (A & B & _); [discriminate|].
  exact (conj A B).
Defined.

(** ** Flight fallback *)

Lemma routeOf_In (origin destination : string) : In (routeOf origin destination) allRoutes.
Proof.
  unfold routeOf, allRoutes.
  destruct (lookup (origin ++ "-" ++ destination) routes) as [info|] eqn:E.
  - right. apply lookup_In in E. now apply (in_map snd) in E.
  - now left.
Qed.

Section FallbackLoop.
Context `{GoLib}.
Variables (info : routeInfo) (depDate retDate : Time).

Lemma fallbackLoop_length (opts : list airlineOption) :
  forall i flights,
    List.length (fallbackLoop info depDate retDate i opts flights)
    = (List.length flights + List.length opts)%nat.
Proof.
  induction opts as [|opt rest IH]; intros i flights; simpl.
  - lia.
  - rewrite IH, List.length_app. simpl. lia.
Qed.

(** A field that does not depend on the position is read off the options. *)
Lemma fallbackLoop_map {B : Type} (g : Flight -> B) (g' : airlineOption -> B) :
  (forall i opt, g (fallbackFlight info depDate retDate i opt) = g' opt) ->
  forall opts i flights,
    map g (fallbackLoop info depDate retDate i opts flights)
    = (map g flights ++ map g' opts)%list.
Proof.
  intros Hg opts. induction opts as [|opt rest IH]; intros i flights; simpl.
  - now rewrite app_nil_r.
  - rewrite IH, map_app. simpl. rewrite Hg, <- app_assoc. reflexivity.
Qed.
End FallbackLoop.

Lemma GenerateFlightsFallback_length `{GoLib} (o d dep ret : string) :
  List.length (GenerateFlightsFallback o d dep ret) = 5%nat.
Proof. unfold GenerateFlightsFallback. now rewrite fallbackLoop_length. Qed.

Lemma GenerateFlightsFallback_nonempty `{GoLib} (o d dep ret : string) :
  GenerateFlightsFallback o d dep ret <> [].
Proof.
  intros E. pose proof (GenerateFlightsFallback_length o d dep ret) as L.
  rewrite E in L. discriminate L.
Qed.

Lemma GenerateFlightsFallback_prices `{GoLib} (o d dep ret : string) :
  map Price (GenerateFlightsFallback o d dep ret)
  = map (fallbackPrice (routeOf o d)) options.
Proof.
  unfold GenerateFlightsFallback.
  now rewrite (fallbackLoop_map _ _ _ Price (fallbackPrice (routeOf o d))).
Qed.

Lemma GenerateFlightsFallback_stops `{GoLib} (o d dep ret : string) :
  map Stops (GenerateFlightsFallback o d dep ret) = [0; 0; 0; 1; 1]
  /\ map ReturnStops (GenerateFlightsFallback o d dep ret) = [0; 0; 0; 1; 1].
Proof.
  unfold GenerateFlightsFallback.
  rewrite (fallbackLoop_map _ _ _ Stops stops) by reflexivity.
  rewrite (fallbackLoop_map _ _ _ ReturnStops stops) by reflexivity.
  split; reflexivity.
Qed.

(** The duration is the base duration, plus 90 minutes for the two options
    with a connection, on both legs. *)
Lemma GenerateFlightsFallback_durations `{GoLib} (o d dep ret : string) :
  let base := duration (routeOf o d) in
  map Duration (GenerateFlightsFallback o d dep ret)
  = map formatDurationMin [base; base; base; base + 90; base + 90]
  /\ map ReturnDuration (GenerateFlightsFallback o d dep ret)
     = map Duration (GenerateFlightsFallback o d dep ret).
Proof.
  unfold GenerateFlightsFallback.
  rewrite (fallbackLoop_map _ _ _ Duration
             (fun opt => formatDurationMin (fallbackDuration (routeOf o d) opt)))
    by reflexivity.
  rewrite (fallbackLoop_map _ _ _ ReturnDuration
             (fun opt => formatDurationMin (fallbackDuration (routeOf o d) opt)))
    by reflexivity.
  split; reflexivity.
Qed.

Lemma fallbackPrice_positive :
  Forall (fun info =>
            Forall (fun opt => F64.ltb F64.zero (fallbackPrice info opt) = true) options)
         allRoutes.
Proof. repeat constructor. Qed.

Lemma GenerateFlightsFallback_positive `{GoLib} (o d dep ret : string) :
  Forall (fun p => F64.ltb F64.zero p = true)
         (map Price (GenerateFlightsFallback o d dep ret)).
Proof.
  rewrite GenerateFlightsFallback_prices.
  pose proof fallbackPrice_positive as All. rewrite Forall_forall in All.
  specialize (All _ (routeOf_In o d)).
  rewrite Forall_forall in *. intros p Hp.
  apply in_map_iff in Hp as (opt & <- & Hopt). now apply All.
Qed.

(** On every route of the table and on the baseline the computed prices are
    the documented ones, except on the two routes whose base price is 100,
    where the second option comes out 5 lower. *)
Lemma fallbackPrice_vs_documented :
  Forall (fun info =>
            exists base,
              basePrice info = F64.of_Z base
              /\ map (fallbackPrice info) options =
                 map F64.of_Z
                   (if base =? 100 then [100; 110; 130; 65; 80]
                    else map (documentedPrice base) percents))
         allRoutes.
Proof.
  unfold allRoutes, routes. simpl map.
  repeat match goal with
         | |- Forall _ [] => constructor
         | |- Forall _ (route ?p _ :: _) =>
             constructor; [exists p; split; vm_compute; reflexivity|]
         end.
Qed.

(** C8, at the input where the code leaves the documented rule: from BER to
    LHR the base price is 100 and the second option has multiplier 1.15; the
    documented price is 115, the binary64 product is just below 115 and the
    truncation yields 110.  Holds for every departure and return date. *)
Theorem GenerateFlightsFallback_BER_LHR `{GoLib} (dep ret : string) :
  map Price (GenerateFlightsFallback "BER" "LHR" dep ret)
  = map F64.of_Z [100; 110; 130; 65; 80]
  /\ map (fun f => GoStr.fixed 0 (Price f)) (GenerateFlightsFallback "BER" "LHR" dep ret)
     = ["100"; "110"; "130"; "65"; "80"]
  /\ map (documentedPrice 100) percents = [100; 115; 130; 65; 80].
Proof.
  assert (P : map Price (GenerateFlightsFallback "BER" "LHR" dep ret)
              = map F64.of_Z [100; 110; 130; 65; 80]).
  { rewrite GenerateFlightsFallback_prices. vm_compute. reflexivity. }
  split; [exact P|]. split; [|reflexivity].
  rewrite <- (map_map Price (GoStr.fixed 0)), P. vm_compute. reflexivity.
Qed.

(** ** The deterministic recommendation *)

(** C2, refuted as stated: with one flight and no hotel the fixed message is
    returned although the flight list is not empty. *)
Lemma FallbackRecommendation_one_list_empty :
  FallbackRecommendation (F64.of_Z 700) [sampleFlight 300 "Beta Air" 1] [] 3
  = "Unable to provide recommendations at this time."
  /\ ~ ([sampleFlight 300 "Beta Air" 1] = [] /\ @nil Hotel = []).
Proof. split; [reflexivity | intros [E _]; discriminate E]. Qed.

(** Either the fixed message or a sentence, by the shape of the two lists. *)
Lemma FallbackRecommendation_shape (budget : float64) (flights : list Flight)
    (hotels : list Hotel) (numNights : Z) :
  match flights, hotels with
  | _ :: _, _ :: _ =>
      exists rest,
        FallbackRecommendation budget flights hotels numNights
        = "Best value picks: " ++ rest
  | _, _ => FallbackRecommendation budget flights hotels numNights = unableMessage
  end.
Proof.
  destruct flights as [|f fs]; [reflexivity|].
  destruct hotels as [|h hs]; [reflexivity|].
  unfold FallbackRecommendation.
  cbn [List.length Z.of_nat Z.eqb orb]. eexists. reflexivity.
Qed.

Lemma FallbackRecommendation_guard (budget : float64) (flights : list Flight)
    (hotels : list Hotel) (numNights : Z) :
  FallbackRecommendation budget flights hotels numNights = unableMessage
  <-> flights = [] \/ hotels = [].
Proof.
  pose proof (FallbackRecommendation_shape budget flights hotels numNights) as Shape.
  destruct flights as [|f fs]; [now split; [left|]|].
  destruct hotels as [|h hs]; [now split; [right|]|].
  destruct Shape as (rest & ->). split.
  - intros E. discriminate E.
  - intros [E|E]; discriminate E.
Qed.

(** C2 (amended): the fixed message is returned exactly when at least one of
    the two lists is empty; when both lists are non-empty the result is a
    recommendation sentence, which begins "Best value picks: ". *)
Theorem FallbackRecommendation_unable_iff (budget : float64) (flights : list Flight)
    (hotels : list Hotel) (numNights : Z) :
  (FallbackRecommendation budget flights hotels numNights = unableMessage
   <-> flights = [] \/ hotels = [])
  /\ match flights, hotels with
     | _ :: _, _ :: _ =>
         exists rest,
           FallbackRecommendation budget flights hotels numNights
           = "Best value picks: " ++ rest
     | _, _ => FallbackRecommendation budget flights hotels numNights = unableMessage
     end.
Proof.
  split; [apply FallbackRecommendation_guard | apply FallbackRecommendation_shape].
Qed.

(** C4, refuted as stated: in the documented scenario the sentence says that
    the combination fits the budget and names the budget; the amount left
    over, 160, appears nowhere in it. *)
Lemma scenario_sentence_omits_spare_amount :
  FallbackRecommendation (F64.of_Z 700) scenarioFlights scenarioHotels 3
  = "Best value picks: Beta Air at $300 (1 stops) and Hotel Two at $80/night (★ 3.5). Estimated total: $540 for flight + 3 nights. This combination fits your $700 budget."
  /\ GoStr.Index
       (FallbackRecommendation (F64.of_Z 700) scenarioFlights scenarioHotels 3) "160"
     = -1.
Proof. split; vm_compute; reflexivity. Qed.

(** On equal prices the earlier offer is kept. *)
Lemma cheapestFlightOf_first_on_tie :
  Airline (cheapestFlightOf
             [sampleFlight 300 "Alpha Air" 0; sampleFlight 300 "Beta Air" 0]
             (sampleFlight 300 "Alpha Air" 0))
  = "Alpha Air".
Proof. reflexivity. Qed.

(** C4 (amended): with flights priced 500 and 300, hotels priced 100 (rated
    4.0) and 80 (rated 3.5), 3 nights and budget 700, the heuristic picks the
    300 flight and the 80 hotel, totals 300 + 80 x 3 = 540 and returns the
    sentence naming the two picks, their price and rating, the total, and that
    the combination fits the $700 budget; no left-over amount is stated. *)
Theorem FallbackRecommendation_scenario (f1 f2 : Flight) (h1 h2 : Hotel) :
  Price f1 = F64.of_Z 500 ->
  Price f2 = F64.of_Z 300 ->
  HPrice h1 = F64.of_Z 100 ->
  Rating h1 = F64.dec 40 10 ->
  HPrice h2 = F64.of_Z 80 ->
  Rating h2 = F64.dec 35 10 ->
  cheapestFlightOf [f1; f2] f1 = f2
  /\ bestValueHotelOf [h1; h2] h1 = h2
  /\ F64.add (Price f2) (F64.mul (HPrice h2) (F64.of_Z 3)) = F64.of_Z 540
  /\ FallbackRecommendation (F64.of_Z 700) [f1; f2] [h1; h2] 3
     = "Best value picks: " ++ Airline f2 ++ " at $300 ("
       ++ GoStr.fixed 0 (F64.of_Z (Stops f2)) ++ " stops) and " ++ Name h2
       ++ " at $80/night (★ 3.5). Estimated total: $540 for flight + 3 nights."
       ++ " This combination fits your $700 budget.".
Proof.
  intros P1 P2 Q1 R1 Q2 R2.
  assert (CF : cheapestFlightOf [f1; f2] f1 = f2).
  { unfold cheapestFlightOf. cbn [fold_left]. rewrite P1.
    change (F64.ltb (F64.of_Z 500) (F64.of_Z 500)) with false. cbv iota.
    rewrite P1, P2. reflexivity. }
  assert (BH : bestValueHotelOf [h1; h2] h1 = h2).
  { unfold bestValueHotelOf. cbn [fold_left]. rewrite Q1.
    change (F64.ltb (F64.of_Z 100) (F64.of_Z 100)) with false. cbv iota.
    rewrite Q1, Q2. reflexivity. }
  repeat split; try assumption.
  - rewrite P2, Q2. reflexivity.
  - unfold FallbackRecommendation.
    cbn [List.length Z.of_nat Z.eqb orb nth]. cbv zeta.
    rewrite CF, BH, P2, Q2, R2.
    change (F64.add (F64.of_Z 300) (F64.mul (F64.of_Z 80) (F64.of_Z 3)))
      with (F64.of_Z 540).
    change (F64.leb (F64.of_Z 540) (F64.of_Z 700)) with true. cbv iota.
    change (GoStr.fixed 0 (F64.of_Z 300)) with "300".
    change (GoStr.fixed 0 (F64.of_Z 80)) with "80".
    change (GoStr.fixed 1 (F64.dec 35 10)) with "3.5".
    change (GoStr.fixed 0 (F64.of_Z 540)) with "540".
    change (GoStr.fixed 0 (F64.of_Z 700)) with "700".
    change (GoStr.itoa 3) with "3".
    rewrite ?app_assoc_str. cbn [append]. reflexivity.
Qed.

(** The scenario with named airlines and hotels. *)
Lemma FallbackRecommendation_scenario_witness :
  FallbackRecommendation (F64.of_Z 700) scenarioFlights scenarioHotels 3
  = "Best value picks: " ++ "Beta Air" ++ " at $300 ("
    ++ GoStr.fixed 0 (F64.of_Z 1) ++ " stops) and " ++ "Hotel Two"
    ++ " at $80/night (★ 3.5). Estimated total: $540 for flight + 3 nights."
    ++ " This combination fits your $700 budget.".
Proof.
  exact (proj2 (proj2 (proj2
    (FallbackRecommendation_scenario
       (sampleFlight 500 "Alpha Air" 0) (sampleFlight 300 "Beta Air" 1)
       (hotel "Hotel One" 100 40 "Centre") (hotel "Hotel Two" 80 35 "Harbour")
       eq_refl eq_refl eq_refl eq_refl eq_refl eq_refl)))).
Defined.

(** ** Flight offers *)

Lemma max_is_Zmax (a b : Z) : max a b = Z.max a b.
Proof. unfold max. destruct (Z.gtb_spec a b); lia. Qed.

Lemma collectFlights_flat_map `{GoLib} (data : list amadeusFlightOffer) :
  collectFlights data
  = flat_map (fun offer => match flightOfOffer offer with
                           | Some f => [f]
                           | None => []
                           end) data.
Proof.
  unfold collectFlights.
  enough (G : forall acc,
             fold_left (fun flights offer =>
                          match flightOfOffer offer with
                          | Some f => (flights ++ [f])%list
                          | None => flights
                          end) data acc
             = (acc ++ flat_map (fun offer => match flightOfOffer offer with
                                              | Some f => [f]
                                              | None => []
                                              end) data)%list)
    by apply (G []).
  induction data as [|offer data IH]; intros acc; simpl.
  - now rewrite app_nil_r.
  - rewrite IH. destruct (flightOfOffer offer); simpl.
    + now rewrite <- app_assoc.
    + reflexivity.
Qed.

Lemma len_cons_ltb1 {A : Type} (x : A) (l : list A) :
  (Z.of_nat (List.length (x :: l)) <? 1) = false.
Proof. apply Z.ltb_ge. simpl List.length. lia. Qed.

Lemma len_cons_eqb0 {A : Type} (x : A) (l : list A) :
  (Z.of_nat (List.length (x :: l)) =? 0) = false.
Proof. apply Z.eqb_neq. simpl List.length. lia. Qed.

Lemma len_cons_gtb0 {A : Type} (x : A) (l : list A) :
  (Z.of_nat (List.length (x :: l)) >? 0) = true.
Proof. apply Z.gtb_lt. simpl List.length. lia. Qed.

Lemma len_cons2_geb2 {A : Type} (x y : A) (l : list A) :
  (Z.of_nat (List.length (x :: y :: l)) >=? 2) = true.
Proof. apply Z.geb_le. simpl List.length. lia. Qed.

(** What the loop body reads from one itinerary. *)
Lemma legFrom_read (it : wireItinerary) :
  legFrom it (parseDuration (ItDuration it))
    (max 0 (Z.of_nat (List.length (Segments it)) - 1))
    (if Z.of_nat (List.length (Segments it)) >? 0
     then At (Departure (nth 0 (Segments it) zeroSegment)) else "")
    (if Z.of_nat (List.length (Segments it)) >? 0
     then At (Arrival (last (Segments it) zeroSegment)) else "").
Proof.
  unfold legFrom. rewrite max_is_Zmax.
  destruct (Segments it) as [|s ss]; [repeat split|].
  rewrite len_cons_gtb0. repeat split.
Qed.

Lemma flightOfOffer_spec `{GoLib} (offer : amadeusFlightOffer) :
  match flightOfOffer offer with
  | None => discardsOffer offer = true
  | Some f => discardsOffer offer = false /\ flightFromOffer offer f
  end.
Proof.
  unfold flightOfOffer, discardsOffer, flightFromOffer.
  destruct (Itineraries offer) as [|outbound others]; [reflexivity|].
  rewrite len_cons_ltb1, len_cons_eqb0. cbn [orb nth].
  destruct (F64.leb (parsePrice (GrandTotal (OfferPrice offer))) F64.zero);
    [reflexivity|].
  split; [reflexivity|].
  pose proof (legFrom_read outbound) as Out.
  destruct others as [|ret rest].
  - change (Z.of_nat (List.length [outbound]) >=? 2) with false. cbv iota.
    destruct (Z.of_nat (List.length (Segments outbound)) >? 0);
      cbn; repeat split; apply Out.
  - rewrite len_cons2_geb2. cbn [nth_error].
    pose proof (legFrom_read ret) as OutR.
    destruct (Z.of_nat (List.length (Segments outbound)) >? 0);
      (split; [reflexivity|]); (split; [exact Out|]);
      destruct (Z.of_nat (List.length (Segments ret)) >? 0); exact OutR.
Qed.

(** C9: every offer with no itinerary or with a parsed price [<= 0] is left
    out; the flights returned are, in order, one per remaining offer; for each
    the outbound leg is read from [itineraries[0]], its stop count is the
    number of outbound segments minus 1, floored at 0; with exactly one
    itinerary the four return-leg fields keep their empty values, and with a
    second itinerary they are read from [itineraries[1]] the same way. *)
Theorem parseFlightOffers_policy `{GoLib} (data : string) :
  match Unmarshal_flightOffers data with
  | None => exists msg, parseFlightOffers data = Err msg
  | Some resp =>
      exists flights,
        parseFlightOffers data = Ok flights
        /\ Forall2 flightFromOffer
             (filter (fun offer => negb (discardsOffer offer)) (FlightData resp))
             flights
  end.
Proof.
  unfold parseFlightOffers.
  destruct (Unmarshal_flightOffers data) as [resp|]; [|eexists; reflexivity].
  eexists. split; [reflexivity|].
  rewrite collectFlights_flat_map.
  induction (FlightData resp) as [|offer offers IH]; simpl; [constructor|].
  pose proof (flightOfOffer_spec offer) as S.
  destruct (flightOfOffer offer) as [f|].
  - destruct S as [-> S]. simpl. constructor; assumption.
  - rewrite S. simpl. exact IH.
Qed.

(** ** Running programs *)

Lemma run_bind {A B : Type} (w : World) (p : Prog A) (f : A -> Prog B) :
  forall hist,
    run w hist (bind p f) = run w (snd (run w hist p)) (f (fst (run w hist p))).
Proof.
  induction p as [a|R c k IH]; intros hist; simpl; [reflexivity | apply IH].
Qed.

(** The history only grows. *)
Lemma run_extends {A : Type} (w : World) (p : Prog A) :
  forall hist, exists tr, snd (run w hist p) = (hist ++ tr)%list.
Proof.
  induction p as [a|R c k IH]; intros hist; simpl.
  - exists []. now rewrite app_nil_r.
  - destruct (IH (w hist R c) (hist ++ [Ev c (w hist R c)])%list) as (tr & E).
    exists (Ev c (w hist R c) :: tr). rewrite E, <- app_assoc. reflexivity.
Qed.

(** ** Credential session *)

Lemma wrap64_small (z : Z) : - 2 ^ 63 <= z < 2 ^ 63 -> wrap64 z = z.
Proof.
  intros R. unfold wrap64. rewrite Z.mod_small; lia.
Qed.

Lemma seconds_small (n : Z) :
  - 9000000030 <= n <= 9000000030 -> seconds (wrap64 n) = n * Second.
Proof.
  intros R. unfold seconds, Second.
  rewrite (wrap64_small n) by lia. apply wrap64_small. lia.
Qed.

(** [getToken] posts to the token endpoint exactly when the cached token is
    empty or the clock is past the stored expiry. *)
Lemma getToken_refresh_decision `{GoLib} (w : World) (c : AmadeusClient) :
  refreshAttempted (snd (run w [] (getToken c)))
  = timeAfter (w [] Z TimeNow) (tokenExpiry c) || String.eqb (accessToken c) "".
Proof.
  unfold getToken. cbn [run app].
  destruct (timeAfter (w [] Z TimeNow) (tokenExpiry c) || String.eqb (accessToken c) "").
  - unfold refreshToken. cbn [bind run app].
    match goal with
    | |- refreshAttempted (snd (run w ?h ?p)) = true =>
        destruct (run_extends w p h) as (tr & E); rewrite E
    end.
    unfold refreshAttempted. rewrite existsb_app. cbn. reflexivity.
  - reflexivity.
Qed.

Lemma getToken_refresh_iff `{GoLib} (w : World) (c : AmadeusClient) :
  refreshAttempted (snd (run w [] (getToken c))) = true
  <-> accessToken c = "" \/ tokenExpiry c < w [] Z TimeNow.
Proof.
  rewrite getToken_refresh_decision, orb_true_iff. unfold timeAfter.
  rewrite Z.gtb_lt, String.eqb_eq. tauto.
Qed.

(** C6: after a successful refresh the client holds the new token and the
    expiry [issued_at + expires_in - 30 s]; the next [getToken] posts to the
    token endpoint exactly when the token is empty or fewer than 30 seconds
    remain before the provider-reported expiry.  With 29 seconds left it
    refreshes, with 31 seconds left and a non-empty token it does not. *)
Theorem token_margin `{GoLib} (w0 : World) (c0 : AmadeusClient)
    (body : string) (r : tokenResponse) :
  let post := TokenPost (baseURL c0 ++ "/v1/security/oauth2/token")
                (clientID c0) (clientSecret c0) in
  w0 [] HttpResult post = HttpResp 200 body ->
  Unmarshal_token body = Some r ->
  - 9000000000 <= ExpiresIn r <= 9000000000 ->
  let issued_at := w0 [Ev post (HttpResp 200 body)] Z TimeNow in
  let c := fst (fst (run w0 [] (refreshToken c0))) in
  let providerExpiry := issued_at + ExpiresIn r * Second in
  snd (fst (run w0 [] (refreshToken c0))) = None
  /\ accessToken c = AccessToken r
  /\ tokenExpiry c = providerExpiry - 30 * Second
  /\ forall w : World,
       let now := w [] Z TimeNow in
       let refreshes := refreshAttempted (snd (run w [] (getToken c))) in
       (refreshes = true <-> accessToken c = "" \/ providerExpiry - now < 30 * Second)
       /\ (providerExpiry = now + 29 * Second -> refreshes = true)
       /\ (providerExpiry = now + 31 * Second -> accessToken c <> "" -> refreshes = false).
Proof.
  intros post Hpost Hjson Hrange issued_at c providerExpiry.
  assert (Run : fst (run w0 [] (refreshToken c0))
                = (storeToken c0 (AccessToken r) (providerExpiry - 30 * Second), None)).
  { unfold refreshToken. cbn [run app]. fold post. rewrite Hpost.
    change (negb (200 =? 200)) with false. cbv iota. rewrite Hjson.
    cbn [run app fst]. fold issued_at.
    rewrite seconds_small by lia. unfold timeAdd, providerExpiry.
    f_equal. f_equal. lia. }
  assert (Tok : accessToken c = AccessToken r) by (unfold c; now rewrite Run).
  assert (Exp : tokenExpiry c = providerExpiry - 30 * Second)
    by (unfold c; now rewrite Run).
  split; [now rewrite Run|]. split; [exact Tok|]. split; [exact Exp|].
  intros w. cbv zeta.
  pose proof (getToken_refresh_iff w c) as Dec. rewrite Exp in Dec.
  remember (w [] Z TimeNow) as now eqn:Enow. clear Enow.
  remember (refreshAttempted (snd (run w [] (getToken c)))) as refreshes eqn:Eref.
  clear Eref. unfold Second in *.
  split; [|split].
  - rewrite Dec. split; intros [A|A]; auto; right; lia.
  - intros E. apply Dec. right. lia.
  - intros E NonEmpty. apply not_true_is_false. intros T.
    apply Dec in T as [T|T]; [contradiction | lia].
Qed.

(** ** Search orchestration *)

Section Orchestration.
Context `{GoLib}.
Variables (w : World) (req : SearchRequest).

Lemma run_flightLeg_none (hist : list Event) :
  run w hist (flightLeg None req) = ((None, flightsFallback req, true), hist).
Proof. reflexivity. Qed.

Lemma run_flightLeg_some (hist : list Event) (c : AmadeusClient) :
  run w hist (flightLeg (Some c) req)
  = ((Some (fst (fst (run w hist (flightLookup c req)))),
      liveOr (snd (fst (run w hist (flightLookup c req)))) (flightsFallback req),
      negb (resolvedLive (snd (fst (run w hist (flightLookup c req)))))),
     snd (run w hist (flightLookup c req))).
Proof.
  unfold flightLeg. rewrite run_bind. fold (flightLookup c req).
  destruct (run w hist (flightLookup c req)) as [[c' res] h'].
  cbn [fst snd]. destruct res as [[|f l]|e]; reflexivity.
Qed.

Lemma run_hotelLeg_skip (hist : list Event) (client : option AmadeusClient)
    (isFallback : bool) :
  client = None \/ isFallback = true ->
  run w hist (hotelLeg client req isFallback)
  = ((client, GenerateHotelsFallback (Destination req), true), hist).
Proof.
  intros [-> | ->]; [reflexivity|]. destruct client; reflexivity.
Qed.

Lemma run_hotelLeg_live (hist : list Event) (c : AmadeusClient) :
  run w hist (hotelLeg (Some c) req false)
  = ((Some (fst (fst (run w hist (hotelLookup c req)))),
      liveOr (snd (fst (run w hist (hotelLookup c req))))
        (GenerateHotelsFallback (Destination req)),
      negb (resolvedLive (snd (fst (run w hist (hotelLookup c req)))))),
     snd (run w hist (hotelLookup c req))).
Proof.
  unfold hotelLeg. cbn [negb]. rewrite run_bind. fold (hotelLookup c req).
  destruct (run w hist (hotelLookup c req)) as [[c' res] h'].
  cbn [fst snd]. destruct res as [[|h l]|e]; reflexivity.
Qed.

(** The handler, leg by leg. *)
Lemma run_SearchHandler (client : option AmadeusClient) (numNights : Z) :
  let r1 := run w [] (flightLeg client req) in
  let c1 := fst (fst (fst r1)) in
  let flights := snd (fst (fst r1)) in
  let r2 := run w (snd r1) (hotelLeg c1 req (snd (fst r1))) in
  let hotels := snd (fst (fst r2)) in
  let isFallback := snd (fst r2) in
  let call := GetRecommendations (Budget req) (Origin req) (Destination req)
                (DepartureDate req) (ReturnDate req) (Passengers req)
                flights hotels isFallback in
  let ai := w (snd r2) (Result string) call in
  run w [] (SearchHandler client req numNights)
  = ((fst (fst (fst r2)),
      {| Flights := flights; Hotels := hotels;
         AISummary := match ai with
                      | Ok text => text
                      | Err _ => FallbackRecommendation (Budget req) flights hotels numNights
                      end;
         Source := if isFallback then "estimated" else "live" |}),
     (snd r2 ++ [Ev call ai])%list).
Proof.
  cbv zeta. unfold SearchHandler. rewrite run_bind.
  destruct (run w [] (flightLeg client req)) as [[[c1 flights] fb] h1].
  cbn [fst snd]. rewrite run_bind.
  destruct (run w h1 (hotelLeg c1 req fb)) as [[[c2 hotels] fb2] h2].
  reflexivity.
Qed.
End Orchestration.

(** C3: the provenance tag is [live] exactly when the flight lookup and the
    hotel lookup both resolved live (no error, at least one result); in every
    other case, flights live with hotels failed or empty included, it is
    [estimated]. *)
Theorem provenance_live_iff_both_live `{GoLib} (w : World)
    (client : option AmadeusClient) (req : SearchRequest) (numNights : Z) :
  let out := snd (fst (run w [] (SearchHandler client req numNights))) in
  Source out
  = (if flightsLive w client req && hotelsLive w client req then "live" else "estimated")
  /\ (Source out = "live"
      <-> flightsLive w client req = true /\ hotelsLive w client req = true)
  /\ (flightsLive w client req = true -> hotelsLive w client req = false ->
      Source out = "estimated").
Proof.
  cbv zeta.
  assert (Main :
    Source (snd (fst (run w [] (SearchHandler client req numNights))))
    = (if flightsLive w client req && hotelsLive w client req
       then "live" else "estimated")).
  { rewrite run_SearchHandler. cbn [fst snd Source].
    unfold flightsLive, hotelsLive. destruct client as [c|].
    - rewrite run_flightLeg_some. cbn [fst snd].
      destruct (resolvedLive (snd (fst (run w [] (flightLookup c req))))); cbn [negb andb].
      + rewrite run_hotelLeg_live. cbn [fst snd].
        destruct (resolvedLive
                    (snd (fst (run w (snd (run w [] (flightLookup c req)))
                                 (hotelLookup (fst (fst (run w [] (flightLookup c req)))) req)))));
          reflexivity.
      + rewrite run_hotelLeg_skip by (right; reflexivity). reflexivity.
    - rewrite run_flightLeg_none. cbn [fst snd].
      rewrite run_hotelLeg_skip by (left; reflexivity). reflexivity. }
  split; [exact Main|]. rewrite Main.
  destruct (flightsLive w client req), (hotelsLive w client req); cbn [andb];
    repeat split; intros; try discriminate; try tauto;
    match goal with
    | A : _ /\ _ |- _ => destruct A; discriminate
    end.
Qed.

Lemma flightsFallback_nonempty `{GoLib} (req : SearchRequest) :
  flightsFallback req <> [].
Proof. unfold flightsFallback. apply GenerateFlightsFallback_nonempty. Qed.

Lemma liveOr_nonempty {A : Type} (res : Result (list A)) (fallback : list A) :
  fallback <> [] -> liveOr res fallback <> [].
Proof.
  intros NE. destruct res as [[|x l]|e]; simpl; try assumption. discriminate.
Qed.

Lemma liveOr_not_live {A : Type} (res : Result (list A)) (fallback : list A) :
  resolvedLive res = false -> liveOr res fallback = fallback.
Proof. destruct res as [[|x l]|e]; simpl; intros E; [reflexivity | discriminate E | reflexivity]. Qed.

(** C7: when the flight lookup did not resolve live (no client, an error, or
    an empty result) the handler makes no call for hotels: after the flight
    lookup the only call is the recommendation request, and the hotels are
    those of [GenerateHotelsFallback], whatever the world would have
    answered. *)
Theorem hotels_not_attempted_after_flight_fallback `{GoLib} (w : World)
    (client : option AmadeusClient) (req : SearchRequest) (numNights : Z) :
  flightsLive w client req = false ->
  let r := run w [] (SearchHandler client req numNights) in
  let lookupTrace := match client with
                     | Some c => snd (run w [] (flightLookup c req))
                     | None => []
                     end in
  let hotels := GenerateHotelsFallback (Destination req) in
  let call := GetRecommendations (Budget req) (Origin req) (Destination req)
                (DepartureDate req) (ReturnDate req) (Passengers req)
                (flightsFallback req) hotels true in
  Flights (snd (fst r)) = flightsFallback req
  /\ Hotels (snd (fst r)) = hotels
  /\ Source (snd (fst r)) = "estimated"
  /\ snd r = (lookupTrace ++ [Ev call (w lookupTrace (Result string) call)])%list.
Proof.
  intros NotLive. cbv zeta. rewrite run_SearchHandler. cbn [fst snd Flights Hotels Source].
  unfold flightsLive in NotLive. destruct client as [c|].
  - rewrite run_flightLeg_some. cbn [fst snd]. rewrite NotLive. cbn [negb].
    rewrite run_hotelLeg_skip by (right; reflexivity). cbn [fst snd].
    rewrite liveOr_not_live by exact NotLive. repeat split.
  - rewrite run_flightLeg_none. cbn [fst snd].
    rewrite run_hotelLeg_skip by (left; reflexivity). repeat split.
Qed.

(** The flights of an outcome are the live ones or the generated ones. *)
Lemma outcome_flights `{GoLib} (w : World)
    (client : option AmadeusClient) (req : SearchRequest) (numNights : Z) :
  Flights (snd (fst (run w [] (SearchHandler client req numNights))))
  = match client with
    | Some c => liveOr (snd (fst (run w [] (flightLookup c req)))) (flightsFallback req)
    | None => flightsFallback req
    end.
Proof.
  rewrite run_SearchHandler. cbn [fst snd Flights]. destruct client as [c|].
  - rewrite run_flightLeg_some. reflexivity.
  - rewrite run_flightLeg_none. reflexivity.
Qed.

(** The hotels of an outcome are generated, or live and not empty. *)
Lemma outcome_hotels `{GoLib} (w : World)
    (client : option AmadeusClient) (req : SearchRequest) (numNights : Z) :
  let hotels := Hotels (snd (fst (run w [] (SearchHandler client req numNights)))) in
  hotels = GenerateHotelsFallback (Destination req)
  \/ (flightsLive w client req = true /\ hotelsLive w client req = true /\ hotels <> []).
Proof.
  cbv zeta. rewrite run_SearchHandler. cbn [fst snd Hotels].
  unfold flightsLive, hotelsLive. destruct client as [c|].
  - rewrite run_flightLeg_some. cbn [fst snd].
    destruct (resolvedLive (snd (fst (run w [] (flightLookup c req))))); cbn [negb].
    + rewrite run_hotelLeg_live. cbn [fst snd].
      destruct (snd (fst (run w (snd (run w [] (flightLookup c req)))
                            (hotelLookup (fst (fst (run w [] (flightLookup c req)))) req))))
        as [[|h l]|e]; cbn [liveOr resolvedLive]; auto.
      right. repeat split. discriminate.
    + rewrite run_hotelLeg_skip by (right; reflexivity). now left.
  - rewrite run_flightLeg_none. cbn [fst snd].
    rewrite run_hotelLeg_skip by (left; reflexivity). now left.
Qed.

(** C10: both generators return at least one offer for every input; the
    flights of an outcome are the live ones when the lookup resolved live and
    the generated ones otherwise, and likewise the hotels; so every outcome
    holds at least one flight and one hotel, and the empty-input guard of
    [FallbackRecommendation] never fires on the lists the handler passes. *)
Theorem outcome_lists_nonempty `{GoLib} (w : World)
    (client : option AmadeusClient) (req : SearchRequest) (numNights : Z) :
  let out := snd (fst (run w [] (SearchHandler client req numNights))) in
  (forall o d dep ret, GenerateFlightsFallback o d dep ret <> [])
  /\ (forall destination, GenerateHotelsFallback destination <> [])
  /\ Flights out
     = match client with
       | Some c => liveOr (snd (fst (run w [] (flightLookup c req)))) (flightsFallback req)
       | None => flightsFallback req
       end
  /\ (Hotels out = GenerateHotelsFallback (Destination req)
      \/ (flightsLive w client req = true /\ hotelsLive w client req = true))
  /\ Flights out <> []
  /\ Hotels out <> []
  /\ FallbackRecommendation (Budget req) (Flights out) (Hotels out) numNights
     <> unableMessage.
Proof.
  cbv zeta.
  pose proof (outcome_flights w client req numNights) as F.
  pose proof (outcome_hotels w client req numNights) as G. cbv zeta in G.
  assert (FN : Flights (snd (fst (run w [] (SearchHandler client req numNights)))) <> []).
  { rewrite F. destruct client as [c|].
    - apply liveOr_nonempty, flightsFallback_nonempty.
    - apply flightsFallback_nonempty. }
  assert (GN : Hotels (snd (fst (run w [] (SearchHandler client req numNights)))) <> []).
  { destruct G as [-> | (_ & _ & NE)]; [apply GenerateHotelsFallback_nonempty | exact NE]. }
  split; [intros; apply GenerateFlightsFallback_nonempty|].
  split; [apply GenerateHotelsFallback_nonempty|].
  split; [exact F|].
  split; [destruct G as [E | (A & B & _)]; [now left | now right]|].
  split; [exact FN|]. split; [exact GN|].
  rewrite FallbackRecommendation_guard. tauto.
Qed.

(** ** The model at work *)

(** Everything answers: live flights and hotels, read from the wire. *)
Lemma example_live_search :
  let out := snd (fst (run Example.liveWorld []
                         (@SearchHandler Example.lib (Some Example.client) Example.request 7))) in
  Source out = "live"
  /\ map Price (Flights out) = [F64.dec 41230 100]
  /\ map Stops (Flights out) = [1]
  /\ map Duration (Flights out) = ["7h 15m"]
  /\ map ReturnDuration (Flights out) = ["6h"]
  /\ map Name (Hotels out) = ["Park Inn"].
Proof. vm_compute. repeat split. Qed.

(** The generated departures are spread over the day; the one-stop options
    arrive on the next day. *)
Lemma example_fallback_flights :
  map (fun f => (DepartureTime f, ArrivalTime f, Duration f))
      (@GenerateFlightsFallback Example.lib "TAS" "LHR" "2025-03-01" "2025-03-08")
  = [("2025-03-01T06:00:00Z", "2025-03-01T14:00:00Z", "8h");
     ("2025-03-01T09:00:00Z", "2025-03-01T17:00:00Z", "8h");
     ("2025-03-01T12:00:00Z", "2025-03-01T20:00:00Z", "8h");
     ("2025-03-01T15:00:00Z", "2025-03-02T00:30:00Z", "9h 30m");
     ("2025-03-01T18:00:00Z", "2025-03-02T03:30:00Z", "9h 30m")].
Proof. vm_compute. reflexivity. Qed.

(** Flights live, hotel offers empty: the tag is [estimated]. *)
Lemma provenance_live_iff_both_live_witness :
  Source (snd (fst (run Example.hotelsEmptyWorld []
                      (@SearchHandler Example.lib (Some Example.client) Example.request 7))))
  = "estimated".
Proof.
  apply (proj2 (proj2 (@provenance_live_iff_both_live Example.lib
                         Example.hotelsEmptyWorld (Some Example.client)
                         Example.request 7)));
    vm_compute; reflexivity.
Defined.

(** A token issued at second 1000 for 1799 s: stored expiry 2769 s; asked at
    second 2770 (29 s before the provider's expiry) the client refreshes, at
    second 2768 (31 s before) it does not. *)
Lemma token_margin_witness :
  let c := fst (fst (run Example.issuingWorld [] (@refreshToken Example.lib Example.client))) in
  tokenExpiry c = 2769 * Second
  /\ refreshAttempted (snd (run (Example.clockAt 2770) [] (@getToken Example.lib c))) = true
  /\ refreshAttempted (snd (run (Example.clockAt 2768) [] (@getToken Example.lib c))) = false.
Proof.
  destruct (@token_margin Example.lib Example.issuingWorld Example.client
              "token-1799" (mkTokenResponse "tok-A" 1799) eq_refl eq_refl)
    as (_ & Tok & Exp & Next).
  - simpl. lia.
  - split; [exact Exp|]. split.
    + apply (proj1 (proj2 (Next (Example.clockAt 2770)))). vm_compute. reflexivity.
    + apply (proj2 (proj2 (Next (Example.clockAt 2768)))); [vm_compute; reflexivity|].
      rewrite Tok. discriminate.
Defined.

(** The flight search answers 500 while hotels would answer: one marketplace
    request in the whole trace, generated hotels. *)
Lemma hotels_not_attempted_after_flight_fallback_witness :
  let r := run Example.flightsDownWorld []
             (@SearchHandler Example.lib (Some Example.client) Example.request 7) in
  Hotels (snd (fst r)) = GenerateHotelsFallback "LHR"
  /\ Source (snd (fst r)) = "estimated"
  /\ List.length (filter isAmadeusDo (snd r)) = 1%nat.
Proof.
  destruct (@hotels_not_attempted_after_flight_fallback Example.lib
              Example.flightsDownWorld (Some Example.client) Example.request 7)
    as (_ & Hh & Hs & Ht).
  - vm_compute. reflexivity.
  - split; [exact Hh|]. split; [exact Hs|]. rewrite Ht. vm_compute. reflexivity.
Defined.

(* ------------------------------------------------------------------ *)
(** * Further properties *)

(** ** The order of binary64 *)

Lemma compare_rank (x y : float64) :
  isNaN x = false -> isNaN y = false ->
  match SFcompare x y with
  | Some Lt => lexlt (rank x) (rank y)
  | Some Eq => rank x = rank y
  | Some Gt => lexlt (rank y) (rank x)
  | None => False
  end.
Proof.
  unfold SFcompare.
  destruct x as [sx|sx| |sx mx ex], y as [sy|sy| |sy my ey];
    try destruct sx; try destruct sy; cbn [rank lexlt isNaN];
    intros Hx Hy; try discriminate; try reflexivity; try lia.
  - change (Pos.compare_cont Eq mx my) with (Pos.compare mx my).
    destruct (Z.compare_spec ex ey); try lia. subst.
    destruct (Pos.compare_spec mx my); cbn [CompOpp]; subst; try reflexivity; lia.
  - change (Pos.compare_cont Eq mx my) with (Pos.compare mx my).
    destruct (Z.compare_spec ex ey); try lia. subst.
    destruct (Pos.compare_spec mx my); subst; try reflexivity; lia.
Qed.

Lemma lexlt_irrefl (a : Z * Z * Z) : ~ lexlt a a.
Proof. destruct a as [[a1 a2] a3]. cbn. lia. Qed.

Lemma lexlt_trans (a b c : Z * Z * Z) : lexlt a b -> lexlt b c -> lexlt a c.
Proof.
  destruct a as [[a1 a2] a3], b as [[b1 b2] b3], c as [[c1 c2] c3]. cbn. lia.
Qed.

Lemma ltb_rank (x y : float64) :
  F64.ltb x y = true <-> isNaN x = false /\ isNaN y = false /\ lexlt (rank x) (rank y).
Proof.
  unfold F64.ltb, SFltb. split.
  - intros L.
    assert (Nx : isNaN x = false) by (destruct x; [reflexivity..|discriminate L|reflexivity]).
    assert (Ny : isNaN y = false)
      by (destruct y; try reflexivity; destruct x; discriminate L).
    pose proof (compare_rank x y Nx Ny) as C.
    destruct (SFcompare x y) as [[| |]|]; try discriminate L. auto.
  - intros (Nx & Ny & L). pose proof (compare_rank x y Nx Ny) as C.
    destruct (SFcompare x y) as [[| |]|]; try reflexivity; try contradiction.
    + rewrite C in L. now apply lexlt_irrefl in L.
    + elim (lexlt_irrefl (rank x)). eapply lexlt_trans; eassumption.
Qed.

Lemma leb_rank (x y : float64) :
  F64.leb x y = true
  <-> isNaN x = false /\ isNaN y = false /\ (lexlt (rank x) (rank y) \/ rank x = rank y).
Proof.
  unfold F64.leb, SFleb. split.
  - intros L.
    assert (Nx : isNaN x = false) by (destruct x; [reflexivity..|discriminate L|reflexivity]).
    assert (Ny : isNaN y = false)
      by (destruct y; try reflexivity; destruct x; discriminate L).
    pose proof (compare_rank x y Nx Ny) as C.
    destruct (SFcompare x y) as [[| |]|]; try discriminate L; auto.
  - intros (Nx & Ny & L). pose proof (compare_rank x y Nx Ny) as C.
    destruct (SFcompare x y) as [[| |]|]; try reflexivity; try contradiction.
    destruct L as [L|E].
    + elim (lexlt_irrefl (rank x)). eapply lexlt_trans; eassumption.
    + rewrite E in C. now apply lexlt_irrefl in C.
Qed.

Lemma ltb_trans (x y z : float64) :
  F64.ltb x y = true -> F64.ltb y z = true -> F64.ltb x z = true.
Proof.
  rewrite !ltb_rank. intros (Nx & Ny & A) (_ & Nz & B).
  repeat split; try assumption. eapply lexlt_trans; eassumption.
Qed.

Lemma ltb_irrefl (x : float64) : F64.ltb x x = false.
Proof.
  apply not_true_is_false. rewrite ltb_rank. intros (_ & _ & L).
  now apply lexlt_irrefl in L.
Qed.

(** Two numbers are always comparable: [x <= y] fails only with [y < x]. *)
Lemma lexlt_total (a b : Z * Z * Z) : lexlt a b \/ a = b \/ lexlt b a.
Proof.
  destruct a as [[a1 a2] a3], b as [[b1 b2] b3]. cbn.
  destruct (Z.lt_total a1 b1) as [?|[?|?]]; try lia.
  destruct (Z.lt_total a2 b2) as [?|[?|?]]; try lia.
  destruct (Z.lt_total a3 b3) as [?|[?|?]]; try lia.
  right. left. congruence.
Qed.

Lemma not_leb_ltb (x y : float64) :
  isNaN x = false -> isNaN y = false -> F64.leb x y = false -> F64.ltb y x = true.
Proof.
  intros Nx Ny L. apply ltb_rank. repeat split; try assumption.
  destruct (lexlt_total (rank x) (rank y)) as [A|[A|A]]; try assumption.
  - assert (T : F64.leb x y = true) by (apply leb_rank; auto). congruence.
  - assert (T : F64.leb x y = true) by (apply leb_rank; auto). congruence.
Qed.

Lemma not_ltb_leb (x y : float64) :
  isNaN x = false -> isNaN y = false -> F64.ltb y x = false -> F64.leb x y = true.
Proof.
  intros Nx Ny L. apply leb_rank. repeat split; try assumption.
  destruct (lexlt_total (rank x) (rank y)) as [A|[A|A]]; auto.
  assert (T : F64.ltb y x = true) by (apply ltb_rank; auto). congruence.
Qed.

(** ** Picking the cheapest *)

Section ArgMin.
Variables (A : Type) (key : A -> float64).

Lemma fold_keep_cheaper (xs : list A) :
  forall init,
    let r := fold_left (keep_cheaper key) xs init in
    (r = init \/ In r xs)
    /\ (r = init \/ F64.ltb (key r) (key init) = true)
    /\ F64.ltb (key init) (key r) = false
    /\ Forall (fun x => F64.ltb (key x) (key r) = false) xs.
Proof.
  induction xs as [|x xs IH]; intros init; cbn [fold_left].
  - repeat split; auto. apply ltb_irrefl.
  - specialize (IH (keep_cheaper key init x)). cbv zeta in IH.
    destruct IH as (Mem & Chain & Low & All).
    set (r := fold_left (keep_cheaper key) xs (keep_cheaper key init x)) in *.
    unfold keep_cheaper in Mem, Chain, Low.
    destruct (F64.ltb (key x) (key init)) eqn:Lx.
    + (* x replaced init *)
      assert (Chain' : r = init \/ F64.ltb (key r) (key init) = true).
      { right. destruct Chain as [->|C]; [exact Lx | eapply ltb_trans; eassumption]. }
      repeat split.
      * destruct Mem as [->|M]; [right; now left | right; now right].
      * exact Chain'.
      * destruct (F64.ltb (key init) (key r)) eqn:E; [|reflexivity].
        rewrite (ltb_trans _ _ _ Lx E) in Low. discriminate Low.
      * constructor; assumption.
    + repeat split.
      * destruct Mem as [M|M]; [now left | right; now right].
      * exact Chain.
      * exact Low.
      * constructor; [|assumption].
        destruct Chain as [->|C]; [exact Lx|].
        destruct (F64.ltb (key x) (key r)) eqn:E; [|reflexivity].
        rewrite (ltb_trans _ _ _ E C) in Lx. discriminate Lx.
Qed.

(** Nothing strictly cheaper than the first: the first stays. *)
Lemma fold_keep_first (xs : list A) (init : A) :
  Forall (fun x => F64.ltb (key x) (key init) = false) xs ->
  fold_left (keep_cheaper key) xs init = init.
Proof.
  induction 1 as [|x xs Hx _ IH]; cbn [fold_left]; [reflexivity|].
  unfold keep_cheaper at 2. rewrite Hx. exact IH.
Qed.
End ArgMin.

(** X1: the two picks of [FallbackRecommendation].  For non-empty lists the
    flight picked is one of the flights and no flight is strictly cheaper;
    likewise the hotel; and when no offer is strictly cheaper than the first
    one, the first one is picked. *)
Theorem recommendation_picks_minimal (flights : list Flight) (hotels : list Hotel) :
  flights <> [] -> hotels <> [] ->
  let f := cheapestFlightOf flights (nth 0 flights zeroFlight) in
  let h := bestValueHotelOf hotels (nth 0 hotels zeroHotel) in
  In f flights
  /\ Forall (fun x => F64.ltb (Price x) (Price f) = false) flights
  /\ In h hotels
  /\ Forall (fun x => F64.ltb (HPrice x) (HPrice h) = false) hotels
  /\ (Forall (fun x => F64.ltb (Price x) (Price (nth 0 flights zeroFlight)) = false) flights ->
      f = nth 0 flights zeroFlight)
  /\ (Forall (fun x => F64.ltb (HPrice x) (HPrice (nth 0 hotels zeroHotel)) = false) hotels ->
      h = nth 0 hotels zeroHotel).
Proof.
  intros NF NH. cbv zeta.
  destruct flights as [|f0 fs]; [now elim NF|].
  destruct hotels as [|h0 hs]; [now elim NH|].
  cbn [nth].
  pose proof (fold_keep_cheaper Flight Price (f0 :: fs) f0) as (MF & _ & _ & AF).
  pose proof (fold_keep_cheaper Hotel HPrice (h0 :: hs) h0) as (MH & _ & _ & AH).
  change (fold_left (keep_cheaper Price) (f0 :: fs) f0)
    with (cheapestFlightOf (f0 :: fs) f0) in *.
  change (fold_left (keep_cheaper HPrice) (h0 :: hs) h0)
    with (bestValueHotelOf (h0 :: hs) h0) in *.
  repeat split.
  - destruct MF as [->|M]; [now left | exact M].
  - exact AF.
  - destruct MH as [->|M]; [now left | exact M].
  - exact AH.
  - intros T. exact (fold_keep_first Flight Price (f0 :: fs) f0 T).
  - intros T. exact (fold_keep_first Hotel HPrice (h0 :: hs) h0 T).
Qed.

(** Three flights at 420, 300 and 300: the first of the two cheapest wins. *)
Lemma recommendation_picks_minimal_witness :
  let flights := [sampleFlight 420 "Alpha Air" 0; sampleFlight 300 "Beta Air" 1;
                  sampleFlight 300 "Gamma Air" 0] in
  In (cheapestFlightOf flights (nth 0 flights zeroFlight)) flights
  /\ Airline (cheapestFlightOf flights (nth 0 flights zeroFlight)) = "Beta Air".
Proof.
  pose proof (recommendation_picks_minimal
                [sampleFlight 420 "Alpha Air" 0; sampleFlight 300 "Beta Air" 1;
                 sampleFlight 300 "Gamma Air" 0]
                scenarioHotels) as W.
  destruct W as (M & _); [discriminate | discriminate |].
  split; [exact M | reflexivity].
Defined.

(** ** Ratings *)

Lemma parseRating_core `{GoLib} (s : string) :
  F64.leb (parseRating s) F64.zero = false
  /\ F64.gtb (parseRating s) (F64.of_Z 5) = false.
Proof.
  unfold parseRating. destruct (String.eqb s ""); [split; reflexivity|].
  destruct (F64.leb (Sscanf_f s) F64.zero) eqn:L; [split; reflexivity|].
  destruct (F64.gtb (Sscanf_f s) (F64.of_Z 5)) eqn:G; [split; reflexivity|].
  split; assumption.
Qed.

(** X2: whatever the text, [parseRating] never returns a value [<= 0] nor one
    [> 5]; unless the scanner produced a NaN the rating lies in (0, 5]; and
    the empty text gives 4.0. *)
Theorem parseRating_range `{GoLib} (s : string) :
  F64.leb (parseRating s) F64.zero = false
  /\ F64.gtb (parseRating s) (F64.of_Z 5) = false
  /\ (isNaN (parseRating s) = false ->
      F64.ltb F64.zero (parseRating s) = true
      /\ F64.leb (parseRating s) (F64.of_Z 5) = true)
  /\ parseRating "" = F64.dec 40 10.
Proof.
  destruct (parseRating_core s) as (L & G).
  split; [exact L|]. split; [exact G|]. split; [|reflexivity].
  intros N. split.
  - now apply not_leb_ltb.
  - apply not_ltb_leb; [assumption | reflexivity | exact G].
Qed.

Lemma parseRating_range_witness :
  F64.ltb F64.zero (@parseRating Example.lib "4.5") = true
  /\ F64.leb (@parseRating Example.lib "4.5") (F64.of_Z 5) = true.
Proof.
  apply (@parseRating_range Example.lib "4.5"). vm_compute. reflexivity.
Defined.

(** ** Lookup helpers *)

(** X3: the display name of a carrier is never empty: the empty code gives
    "Unknown Airline", and a non-empty code that is not two bytes long (no
    key of the table) gives the code followed by " Airlines". *)
Theorem airlineName_never_empty (code : string) :
  airlineName code <> ""
  /\ airlineName "" = "Unknown Airline"
  /\ (code <> "" -> GoStr.len code <> 2 -> airlineName code = code ++ " Airlines").
Proof.
  split; [|split; [reflexivity|]].
  - unfold airlineName.
    match goal with
    | |- context [lookup code ?tbl] => destruct (lookup code tbl) as [n|] eqn:E
    end.
    + apply lookup_In in E. simpl in E.
      repeat (destruct E as [E|E]; [injection E as _ <-; discriminate|]).
      contradiction.
    + destruct code; [discriminate | discriminate].
  - intros NE L2. unfold airlineName.
    match goal with
    | |- context [lookup code ?tbl] => destruct (lookup code tbl) as [n|] eqn:E
    end.
    + apply lookup_In in E. simpl in E.
      repeat (destruct E as [E|E]; [injection E as <- <-; now elim L2|]).
      contradiction.
    + destruct code; [now elim NE | reflexivity].
Qed.

Lemma airlineName_never_empty_witness : airlineName "XYZ" = "XYZ" ++ " Airlines".
Proof.
  apply (proj2 (proj2 (airlineName_never_empty "XYZ"))); [discriminate|].
  vm_compute. discriminate.
Defined.

(** X4: [airportToCity] is idempotent: a city code it returns is mapped to
    itself, so resolving twice changes nothing; and a code that is not three
    bytes long passes through unchanged. *)
Theorem airportToCity_idempotent (airport : string) :
  airportToCity (airportToCity airport) = airportToCity airport
  /\ (GoStr.len airport <> 3 -> airportToCity airport = airport).
Proof.
  unfold airportToCity at 2 3 4.
  match goal with
  | |- context [lookup airport ?tbl] => destruct (lookup airport tbl) as [city|] eqn:E
  end.
  - apply lookup_In in E. simpl in E.
    repeat (destruct E as [E|E];
            [injection E as <- <-; split; [reflexivity | intros L; now elim L]|]).
    contradiction.
  - split; [|reflexivity]. unfold airportToCity. rewrite E. reflexivity.
Qed.

Lemma airportToCity_idempotent_witness : airportToCity "HEATHROW" = "HEATHROW".
Proof.
  apply (proj2 (airportToCity_idempotent "HEATHROW")). vm_compute. discriminate.
Defined.

(** ** Hotel offers *)

Lemma collectHotels_flat_map `{GoLib} (data : list wireHotelItem) :
  collectHotels data
  = flat_map (fun item => match hotelOfItem item with
                          | Some h => [h]
                          | None => []
                          end) data.
Proof.
  unfold collectHotels.
  enough (G : forall acc,
             fold_left (fun hotels item =>
                          match hotelOfItem item with
                          | Some h => (hotels ++ [h])%list
                          | None => hotels
                          end) data acc
             = (acc ++ flat_map (fun item => match hotelOfItem item with
                                             | Some h => [h]
                                             | None => []
                                             end) data)%list)
    by apply (G []).
  induction data as [|item data IH]; intros acc; simpl.
  - now rewrite app_nil_r.
  - rewrite IH. destruct (hotelOfItem item); simpl.
    + now rewrite <- app_assoc.
    + reflexivity.
Qed.

Lemma hotelOfItem_spec `{GoLib} (item : wireHotelItem) :
  match hotelOfItem item with
  | None => discardsItem item = true
  | Some h => discardsItem item = false /\ hotelFromItem item h
  end.
Proof.
  unfold hotelOfItem, discardsItem, hotelFromItem.
  destruct (negb (Available item) || (Z.of_nat (List.length (Offers item)) =? 0));
    [reflexivity|].
  cbn [orb].
  destruct (F64.leb (parsePrice (GrandTotal (nth 0 (Offers item) zeroWirePrice))) F64.zero)
    eqn:L; [reflexivity|].
  split; [reflexivity|]. cbn.
  pose proof (parseRating_core (WRating (ItemHotel item))) as (R0 & R5).
  repeat split; assumption.
Qed.

(** X5: the hotels of a hotel-offers response are, in order, one per item that
    is available, has at least one offer and whose first offer's parsed price
    is not [<= 0]; name and identifier are copied, the price and currency are
    those of the first offer, the location is the city name or, when that is
    empty, the city code, and the rating is never [<= 0] nor [> 5]. *)
Theorem collectHotels_policy `{GoLib} (data : list wireHotelItem) :
  Forall2 hotelFromItem (filter (fun item => negb (discardsItem item)) data)
          (collectHotels data)
  /\ (List.length (collectHotels data) <= List.length data)%nat.
Proof.
  rewrite collectHotels_flat_map. split.
  - induction data as [|item items IH]; simpl; [constructor|].
    pose proof (hotelOfItem_spec item) as S.
    destruct (hotelOfItem item) as [h|].
    + destruct S as [-> S]. simpl. constructor; assumption.
    + rewrite S. simpl. exact IH.
  - induction data as [|item items IH]; simpl; [lia|].
    rewrite List.length_app. destruct (hotelOfItem item); simpl; lia.
Qed.

(** ** Carrier and identity of a parsed flight *)

Lemma airlineName_nonempty (code : string) : airlineName code <> "".
Proof.
  unfold airlineName.
  match goal with
  | |- context [lookup code ?tbl] => destruct (lookup code tbl) as [n|] eqn:E
  end.
  - apply lookup_In in E. simpl in E.
    repeat (destruct E as [E|E]; [injection E as _ <-; discriminate|]).
    contradiction.
  - destruct code; discriminate.
Qed.

Lemma max0_nonneg (n : Z) : 0 <= max 0 n.
Proof. rewrite max_is_Zmax. lia. Qed.

Lemma flightOfOffer_identity `{GoLib} (offer : amadeusFlightOffer) (f : Flight) :
  flightOfOffer offer = Some f -> flightIdentity offer f.
Proof.
  unfold flightOfOffer, flightIdentity, carrierOf.
  destruct (Itineraries offer) as [|outbound others]; [discriminate|].
  rewrite len_cons_ltb1. cbn [nth].
  destruct (F64.leb (parsePrice (GrandTotal (OfferPrice offer))) F64.zero) eqn:L;
    [discriminate|].
  assert (Ret : (if Z.of_nat (List.length (outbound :: others)) >=? 2
                 then nth_error (outbound :: others) 1 else None)
                = nth_error others 0).
  { destruct others as [|ret rest]; [reflexivity|]. now rewrite len_cons2_geb2. }
  rewrite Ret. clear Ret.
  intros [= <-].
  destruct (Segments outbound) as [|s ss] eqn:Segs.
  - change (Z.of_nat (List.length (@nil wireSegment)) >? 0) with false. cbv iota.
    destruct (ValidatingAirlineCodes offer) as [|v vs].
    + change (Z.of_nat (List.length (@nil string)) >? 0) with false. cbv iota.
      destruct others as [|ret rest];
        cbn; repeat split; try discriminate; try apply max0_nonneg; try lia; try exact L.
    + rewrite len_cons_gtb0. cbn [nth].
      destruct others as [|ret rest];
        cbn; repeat split; try apply airlineName_nonempty; try apply max0_nonneg;
        try lia; try exact L.
  - rewrite len_cons_gtb0. cbn [nth].
    destruct others as [|ret rest];
      cbn; repeat split; try apply airlineName_nonempty; try apply max0_nonneg;
      try lia; try exact L.
Qed.

(** X6: every flight of a flight-offers response takes its airline code from
    the first outbound segment, or from the first validating airline when the
    outbound itinerary has no segment; its display name is that code's name
    and is never empty; its flight number is the code followed by the number
    of the first segment; its price is never [<= 0] and neither stop count is
    negative. *)
Theorem collectFlights_identity `{GoLib} (data : list amadeusFlightOffer) :
  Forall2 flightIdentity
          (filter (fun offer => negb (discardsOffer offer)) data)
          (collectFlights data)
  /\ (List.length (collectFlights data) <= List.length data)%nat.
Proof.
  rewrite collectFlights_flat_map. split.
  - induction data as [|offer offers IH]; simpl; [constructor|].
    pose proof (flightOfOffer_spec offer) as S.
    pose proof (flightOfOffer_identity offer) as I.
    destruct (flightOfOffer offer) as [f|].
    + destruct S as [-> _]. simpl. constructor; [now apply I | exact IH].
    + rewrite S. simpl. exact IH.
  - induction data as [|offer offers IH]; simpl; [lia|].
    rewrite List.length_app. destruct (flightOfOffer offer); simpl; lia.
Qed.

(** ** More on the flight fallback *)

(** From [o ++ "-" ++ d = key] to [o] and [d], byte by byte. *)
Ltac key_inv H o :=
  destruct o as [|? o]; cbn [append] in H;
  [ first [discriminate H | injection H as H; subst]
  | first [discriminate H | (injection H as ? H; subst; key_inv H o)] ].

Lemma routes_reverse (origin destination : string) (info : routeInfo) :
  lookup (origin ++ "-" ++ destination) routes = Some info ->
  lookup (destination ++ "-" ++ origin) routes = Some info.
Proof.
  intros E. apply lookup_In in E. unfold routes in E. cbn [In] in E.
  repeat (destruct E as [E|E];
          [injection E as K <-; symmetry in K; key_inv K origin; reflexivity|]).
  contradiction.
Qed.

Lemma routeOf_symmetric (origin destination : string) :
  routeOf origin destination = routeOf destination origin.
Proof.
  unfold routeOf.
  destruct (lookup (origin ++ "-" ++ destination) routes) as [info|] eqn:A.
  - now rewrite (routes_reverse _ _ _ A).
  - destruct (lookup (destination ++ "-" ++ origin) routes) as [info|] eqn:B;
      [|reflexivity].
    rewrite (routes_reverse _ _ _ B) in A. discriminate A.
Qed.

(** X7: price, duration, stops and airline of the generated flights depend only
    on the pair of airports, not on its direction nor on the dates. *)
Theorem GenerateFlightsFallback_symmetric `{GoLib}
    (origin destination dep ret dep' ret' : string) :
  let shown (f : Flight) :=
    (Airline f, Price f, Duration f, Stops f, ReturnDuration f, ReturnStops f) in
  map shown (GenerateFlightsFallback origin destination dep ret)
  = map shown (GenerateFlightsFallback destination origin dep' ret').
Proof.
  cbv zeta. unfold GenerateFlightsFallback.
  rewrite (routeOf_symmetric destination origin).
  set (info := routeOf origin destination).
  set (g' := fun opt : airlineOption =>
               (name opt, fallbackPrice info opt,
                formatDurationMin (fallbackDuration info opt), stops opt,
                formatDurationMin (fallbackDuration info opt), stops opt)).
  rewrite (fallbackLoop_map info (time_Parse dep) (time_Parse ret) _ g')
    by reflexivity.
  rewrite (fallbackLoop_map info (time_Parse dep') (time_Parse ret') _ g')
    by reflexivity.
  reflexivity.
Qed.

Lemma fallbackPrice_on_grid :
  Forall (fun info =>
            Forall (fun opt =>
                      let p := fallbackPrice info opt in
                      p = F64.of_Z (5 * (F64.to_int p / 5))
                      /\ 10 <= F64.to_int p / 5 <= 130)
                   options)
         allRoutes.
Proof.
  unfold allRoutes, routes, options. simpl map.
  repeat first [apply Forall_nil | apply Forall_cons].
  all: cbv beta zeta; split; [vm_compute; reflexivity | vm_compute; split; discriminate].
Qed.

(** X8: for every input each generated price is a whole multiple of 5, between
    50 and 650. *)
Theorem GenerateFlightsFallback_price_grid `{GoLib}
    (origin destination dep ret : string) :
  Forall (fun p => exists k, p = F64.of_Z (5 * k) /\ 10 <= k <= 130)
         (map Price (GenerateFlightsFallback origin destination dep ret)).
Proof.
  rewrite GenerateFlightsFallback_prices.
  pose proof fallbackPrice_on_grid as All. rewrite Forall_forall in All.
  specialize (All _ (routeOf_In origin destination)).
  rewrite Forall_forall in *. intros p Hp.
  apply in_map_iff in Hp as (opt & <- & Hopt).
  specialize (All _ Hopt). cbv zeta in All.
  exists (F64.to_int (fallbackPrice (routeOf origin destination) opt) / 5).
  exact All.
Qed.

(** ** The two duration formats agree *)

Lemma digits_no_byte (c : ascii) (u : Decimal.uint) :
  (Z.of_nat (nat_of_ascii c) < 48 \/ 57 < Z.of_nat (nat_of_ascii c)) ->
  String.index 0 (String c "") (NilEmpty.string_of_uint u) = None.
Proof.
  intros Out. induction u as [|u IH|u IH|u IH|u IH|u IH|u IH|u IH|u IH|u IH|u IH];
    [reflexivity|..];
    cbn [NilEmpty.string_of_uint String.index String.prefix];
    (destruct (ascii_dec c _) as [->|_]; [cbn in Out; lia|]);
    now rewrite IH.
Qed.

Lemma itoa_no_letter (c : ascii) (n : Z) :
  0 <= n -> 57 < Z.of_nat (nat_of_ascii c) ->
  GoStr.Index (GoStr.itoa n) (String c "") = -1.
Proof.
  intros Hn Out. apply Index_absent. unfold GoStr.itoa.
  destruct n as [|p|p]; [| |lia].
  - cbn. destruct (ascii_dec c "0") as [->|_]; [cbn in Out; lia | reflexivity].
  - cbn [Z.to_int NilZero.string_of_int].
    unfold NilZero.string_of_uint.
    destruct (Pos.to_uint p) eqn:E; try (rewrite <- E);
      try (apply digits_no_byte; lia).
    cbn. destruct (ascii_dec c "0") as [->|_]; [cbn in Out; lia | reflexivity].
Qed.

(** X9: a duration of [h] hours and [m] minutes reads the same whether it is
    parsed from the provider's ISO-8601 text or formatted from a number of
    minutes by the fallback generator; without minutes both give the hours
    alone. *)
Theorem duration_formats_agree (h m : Z) :
  0 <= h -> 0 < m < 60 ->
  parseDuration ("PT" ++ GoStr.itoa h ++ "H" ++ GoStr.itoa m ++ "M")
  = formatDurationMin (60 * h + m)
  /\ parseDuration ("PT" ++ GoStr.itoa h ++ "H") = formatDurationMin (60 * h).
Proof.
  intros Hh Hm.
  assert (NoH : GoStr.Index (GoStr.itoa h) "H" = -1)
    by (apply itoa_no_letter; [lia | cbn; lia]).
  assert (NoM : GoStr.Index (GoStr.itoa m) "M" = -1)
    by (apply itoa_no_letter; [lia | cbn; lia]).
  unfold formatDurationMin.
  replace (Z.quot (60 * h + m) 60) with h
    by (apply Z.quot_unique with (r := m); lia).
  replace (Z.rem (60 * h + m) 60) with m
    by (apply Z.rem_unique with (q := h); lia).
  replace (Z.quot (60 * h) 60) with h
    by (apply Z.quot_unique with (r := 0); lia).
  replace (Z.rem (60 * h) 60) with 0
    by (apply Z.rem_unique with (q := h); lia).
  destruct (Z.gtb_spec m 0) as [_|Bad]; [|lia].
  change (0 >? 0) with false. cbv iota. split.
  - change ("H" ++ GoStr.itoa m ++ "M") with (String "H" (GoStr.itoa m ++ "M")).
    rewrite (parseDuration_with_H _ _ NoH).
    rewrite (Index1_app "M" (GoStr.itoa m) "M" NoM), Index1_here.
    change (0 <? 0) with false. cbv iota. rewrite Z.add_0_r, len_snoc.
    pose proof (len_nonneg (GoStr.itoa m)) as Ln.
    destruct (Z.geb_spec (GoStr.len (GoStr.itoa m)) 0) as [_|Bad]; [|lia].
    destruct (Z.ltb_spec (GoStr.len (GoStr.itoa m)) (GoStr.len (GoStr.itoa m) + 1))
      as [_|Bad]; [|lia].
    cbn [andb]. now rewrite slice_to_app.
  - exact (parseDuration_with_H _ "" NoH).
Qed.

Lemma duration_formats_agree_witness :
  parseDuration ("PT" ++ GoStr.itoa 5 ++ "H" ++ GoStr.itoa 30 ++ "M")
  = formatDurationMin (60 * 5 + 30).
Proof. apply (duration_formats_agree 5 30); lia. Defined.

(** ** The prompt *)

Lemma promptFlightLines_firstn (flights : list Flight) :
  forall i prompt, 0 <= i <= 5 ->
    promptFlightLines i flights prompt
    = promptFlightLines i (firstn (Z.to_nat (5 - i)) flights) prompt.
Proof.
  induction flights as [|f rest IH]; intros i prompt Hi.
  - now rewrite firstn_nil.
  - cbn [promptFlightLines]. destruct (Z.geb_spec i 5) as [Ge|Lt].
    + replace (Z.to_nat (5 - i)) with 0%nat by lia. reflexivity.
    + replace (Z.to_nat (5 - i)) with (S (Z.to_nat (5 - (i + 1)))) by lia.
      cbn [firstn promptFlightLines].
      destruct (Z.geb_spec i 5) as [Ge|_]; [lia|].
      apply IH. lia.
Qed.

Lemma promptHotelLines_firstn (hotels : list Hotel) :
  forall i prompt, 0 <= i <= 5 ->
    promptHotelLines i hotels prompt
    = promptHotelLines i (firstn (Z.to_nat (5 - i)) hotels) prompt.
Proof.
  induction hotels as [|h rest IH]; intros i prompt Hi.
  - now rewrite firstn_nil.
  - cbn [promptHotelLines]. destruct (Z.geb_spec i 5) as [Ge|Lt].
    + replace (Z.to_nat (5 - i)) with 0%nat by lia. reflexivity.
    + replace (Z.to_nat (5 - i)) with (S (Z.to_nat (5 - (i + 1)))) by lia.
      cbn [firstn promptHotelLines].
      destruct (Z.geb_spec i 5) as [Ge|_]; [lia|].
      apply IH. lia.
Qed.

(** X10: the prompt shows at most the first five flights and the first five
    hotels, in input order: offers beyond the fifth change nothing. *)
Theorem buildPrompt_first_five (budget : float64)
    (origin destination departureDate returnDate : string) (passengers : Z)
    (flights : list Flight) (hotels : list Hotel) (isFallbackData : bool) :
  buildPrompt budget origin destination departureDate returnDate passengers
    flights hotels isFallbackData
  = buildPrompt budget origin destination departureDate returnDate passengers
      (firstn 5 flights) (firstn 5 hotels) isFallbackData.
Proof.
  unfold buildPrompt.
  rewrite (promptFlightLines_firstn flights 0) by lia.
  rewrite (promptHotelLines_firstn hotels 0) by lia.
  reflexivity.
Qed.

(** ** Selecting the offers of an itinerary *)

Lemma clampIndex_in_range (selected len : Z) :
  0 < len -> 0 <= clampIndex selected len < len.
Proof.
  intros L. unfold clampIndex.
  destruct (Z.ltb_spec selected 0), (Z.geb_spec selected len); cbn [orb]; lia.
Qed.

Lemma indexAt_some {A : Type} (xs : list A) (i : Z) :
  0 <= i < Z.of_nat (List.length xs) -> exists x, indexAt xs i = Some x /\ In x xs.
Proof.
  intros R. unfold indexAt.
  destruct (Z.ltb_spec i 0), (Z.geb_spec i (Z.of_nat (List.length xs))); try lia.
  cbn [orb]. destruct (nth_error xs (Z.to_nat i)) as [x|] eqn:E.
  - exists x. split; [reflexivity|]. eapply nth_error_In; eassumption.
  - apply nth_error_None in E. lia.
Qed.

Lemma indexAt_nil {A : Type} (i : Z) : indexAt (@nil A) i = None.
Proof.
  unfold indexAt. cbn [List.length Z.of_nat].
  destruct (Z.ltb_spec i 0), (Z.geb_spec i 0); try reflexivity; lia.
Qed.

(** X11: with both cached lists non-empty the selection always succeeds: an
    index inside the list selects that offer, any other index selects the
    first one, and the total is the flight price plus the nightly price times
    the nights.  With an empty list of flights or of hotels the handler
    panics on the index, whatever the selected indices. *)
Theorem selectOffers_behaviour (flights : list Flight) (hotels : list Hotel)
    (fi hi numNights : Z) :
  (selectOffers flights hotels fi hi numNights = None <-> flights = [] \/ hotels = [])
  /\ (flights <> [] -> hotels <> [] ->
      exists f h,
        selectOffers flights hotels fi hi numNights
        = Some (f, h, F64.add (Price f) (F64.mul (HPrice h) (F64.of_Z numNights)))
        /\ In f flights /\ In h hotels
        /\ nth_error flights
             (if (fi <? 0) || (fi >=? Z.of_nat (List.length flights))
              then 0%nat else Z.to_nat fi) = Some f
        /\ nth_error hotels
             (if (hi <? 0) || (hi >=? Z.of_nat (List.length hotels))
              then 0%nat else Z.to_nat hi) = Some h).
Proof.
  assert (Full : flights <> [] -> hotels <> [] ->
      exists f h,
        selectOffers flights hotels fi hi numNights
        = Some (f, h, F64.add (Price f) (F64.mul (HPrice h) (F64.of_Z numNights)))
        /\ In f flights /\ In h hotels
        /\ nth_error flights
             (if (fi <? 0) || (fi >=? Z.of_nat (List.length flights))
              then 0%nat else Z.to_nat fi) = Some f
        /\ nth_error hotels
             (if (hi <? 0) || (hi >=? Z.of_nat (List.length hotels))
              then 0%nat else Z.to_nat hi) = Some h).
  { intros NF NH.
    assert (LF : 0 < Z.of_nat (List.length flights)) by (destruct flights; [now elim NF | simpl; lia]).
    assert (LH : 0 < Z.of_nat (List.length hotels)) by (destruct hotels; [now elim NH | simpl; lia]).
    pose proof (clampIndex_in_range fi _ LF) as RF.
    pose proof (clampIndex_in_range hi _ LH) as RH.
    destruct (indexAt_some flights _ RF) as (f & Ef & Inf).
    destruct (indexAt_some hotels _ RH) as (h & Eh & Inh).
    exists f, h. unfold selectOffers. rewrite Ef, Eh.
    split; [reflexivity|]. split; [exact Inf|]. split; [exact Inh|].
    unfold indexAt in Ef, Eh.
    destruct (Z.ltb_spec (clampIndex fi (Z.of_nat (List.length flights))) 0),
             (Z.geb_spec (clampIndex fi (Z.of_nat (List.length flights)))
                         (Z.of_nat (List.length flights))); try lia.
    destruct (Z.ltb_spec (clampIndex hi (Z.of_nat (List.length hotels))) 0),
             (Z.geb_spec (clampIndex hi (Z.of_nat (List.length hotels)))
                         (Z.of_nat (List.length hotels))); try lia.
    cbn [orb] in Ef, Eh. unfold clampIndex in Ef, Eh.
    destruct ((fi <? 0) || (fi >=? Z.of_nat (List.length flights)));
      destruct ((hi <? 0) || (hi >=? Z.of_nat (List.length hotels)));
      split; assumption. }
  split; [|exact Full]. split.
  - intros N. destruct flights as [|f fs]; [now left|].
    destruct hotels as [|h hs]; [now right|].
    destruct Full as (f' & h' & E & _); try discriminate. congruence.
  - intros [-> | ->]; unfold selectOffers.
    + now rewrite indexAt_nil.
    + rewrite (indexAt_nil (A := Hotel)).
      destruct (indexAt flights (clampIndex fi (Z.of_nat (List.length flights))));
        reflexivity.
Qed.

Lemma selectOffers_behaviour_witness :
  exists f h,
    selectOffers scenarioFlights scenarioHotels 7 1 3
    = Some (f, h, F64.add (Price f) (F64.mul (HPrice h) (F64.of_Z 3)))
    /\ Airline f = "Alpha Air" /\ Name h = "Hotel Two".
Proof.
  destruct (proj2 (selectOffers_behaviour scenarioFlights scenarioHotels 7 1 3))
    as (f & h & E & _ & _ & Nf & Nh); try discriminate.
  exists f, h. split; [exact E|].
  injection Nf as <-. injection Nh as <-. split; reflexivity.
Defined.

(** ** Reasoning about programs *)

Lemma AtMost_mono (P : Event -> bool) {A : Type} (p : Prog A) (n m : nat) :
  (n <= m)%nat -> AtMost P n p -> AtMost P m p.
Proof.
  intros Le H. revert m Le.
  induction H as [n a|n R c k Hskip _ IH|n R c k _ IH]; intros m Le.
  - constructor.
  - apply AtMostSkip; [assumption|]. intros r. now apply IH.
  - destruct m as [|m]; [lia|]. apply AtMostCount. intros r. apply IH. lia.
Qed.

Lemma AtMost_bind (P : Event -> bool) {A B : Type} (p : Prog A) (f : A -> Prog B)
    (n m : nat) :
  AtMost P n p -> (forall a, AtMost P m (f a)) -> AtMost P (n + m) (bind p f).
Proof.
  intros H F.
  induction H as [n a|n R c k Hskip _ IH|n R c k _ IH]; cbn [bind].
  - apply AtMost_mono with (n := m); [lia | apply F].
  - apply AtMostSkip; assumption.
  - apply (AtMostCount P (n + m)). assumption.
Qed.

Lemma countCalls_app (P : Event -> bool) (a b : list Event) :
  countCalls P (a ++ b) = (countCalls P a + countCalls P b)%nat.
Proof. unfold countCalls. now rewrite filter_app, List.length_app. Qed.

Lemma AtMost_run (P : Event -> bool) {A : Type} (p : Prog A) (n : nat) :
  AtMost P n p ->
  forall (w : World) hist,
    (countCalls P (snd (run w hist p)) <= countCalls P hist + n)%nat.
Proof.
  induction 1 as [n a|n R c k Hskip _ IH|n R c k _ IH]; intros w hist; cbn [run snd].
  - lia.
  - specialize (IH (w hist R c) w (hist ++ [Ev c (w hist R c)])%list).
    rewrite countCalls_app in IH. unfold countCalls at 3 in IH. cbn [filter] in IH.
    rewrite Hskip in IH. cbn in IH. lia.
  - specialize (IH (w hist R c) w (hist ++ [Ev c (w hist R c)])%list).
    rewrite countCalls_app in IH. unfold countCalls at 3 in IH. cbn [filter] in IH.
    destruct (P (Ev c (w hist R c))); cbn in IH; lia.
Qed.

Lemma run_count_grows (P : Event -> bool) {A : Type} (w : World) (p : Prog A) hist :
  (countCalls P hist <= countCalls P (snd (run w hist p)))%nat.
Proof.
  destruct (run_extends w p hist) as (tr & ->). rewrite countCalls_app. lia.
Qed.

Lemma Obeys_weaken (assume : forall R : Type, Call R -> R -> Prop) (allow : Event -> Prop)
    {A : Type} (post post' : A -> Prop) (p : Prog A) :
  (forall a, post a -> post' a) ->
  Obeys assume allow post p -> Obeys assume allow post' p.
Proof.
  intros Imp. induction 1 as [a Ha|R c k Hallow _ IH].
  - constructor. now apply Imp.
  - constructor; assumption.
Qed.

Lemma Obeys_bind (assume : forall R : Type, Call R -> R -> Prop) (allow : Event -> Prop)
    {A B : Type} (mid : A -> Prop) (post : B -> Prop) (p : Prog A) (f : A -> Prog B) :
  Obeys assume allow mid p ->
  (forall a, mid a -> Obeys assume allow post (f a)) ->
  Obeys assume allow post (bind p f).
Proof.
  intros H F. induction H as [a Ha|R c k Hallow _ IH]; cbn [bind].
  - now apply F.
  - constructor; assumption.
Qed.

(** In a world whose answers satisfy the assumption, the result satisfies the
    postcondition and every new call is an allowed one. *)
Lemma Obeys_run (assume : forall R : Type, Call R -> R -> Prop) (allow : Event -> Prop)
    {A : Type} (post : A -> Prop) (p : Prog A) (w : World) :
  (forall hist R (c : Call R), assume R c (w hist R c)) ->
  Obeys assume allow post p ->
  forall hist,
    post (fst (run w hist p))
    /\ exists tr, snd (run w hist p) = (hist ++ tr)%list /\ Forall allow tr.
Proof.
  intros Hw. induction 1 as [a Ha|R c k Hallow _ IH]; intros hist; cbn [run].
  - split; [exact Ha|]. exists []. split; [now rewrite app_nil_r | constructor].
  - destruct (IH (w hist R c) (Hw hist R c) (hist ++ [Ev c (w hist R c)])%list)
      as (Post & tr & E & All).
    split; [exact Post|].
    exists (Ev c (w hist R c) :: tr). split.
    + rewrite E, <- app_assoc. reflexivity.
    + constructor; [apply Hallow, Hw | exact All].
Qed.

(** Walks a program tree, spending the budget on the calls that count. *)
Ltac bind_head p :=
  lazymatch p with
  | bind ?q _ => bind_head q
  | _ => p
  end.

Ltac at_most_step :=
  lazymatch goal with
  | |- AtMost _ _ (Ret _) => apply AtMostRet
  | |- AtMost _ _ (Do _ _) =>
      first [ apply AtMostSkip; [intros; reflexivity | intros]
            | apply AtMostCount; intros ]
  | |- AtMost _ _ (if ?b then _ else _) => destruct b
  | |- AtMost _ _ (match ?x with _ => _ end) => destruct x
  | |- AtMost _ _ (bind ?p _) =>
      let h := bind_head p in
      lazymatch h with
      | Ret _ => cbn [bind]
      | Do _ _ => cbn [bind]
      | (if ?b then _ else _) => destruct b
      | (match ?x with _ => _ end) => destruct x
      end
  end.

Ltac at_most := repeat at_most_step.

Section CallBudget.
Context `{GoLib}.

Lemma SearchHandler_posts (client : option AmadeusClient) (req : SearchRequest) (n : Z) :
  AtMost isTokenPost 3 (SearchHandler client req n).
Proof.
  unfold SearchHandler, flightLeg, hotelLeg, SearchFlights, SearchHotels,
    getHotelIDsByCity, getHotelOffers, doRequest, getToken, refreshToken.
  at_most.
Qed.

Lemma SearchHandler_requests (client : option AmadeusClient) (req : SearchRequest) (n : Z) :
  AtMost isAmadeusDo 3 (SearchHandler client req n).
Proof.
  unfold SearchHandler, flightLeg, hotelLeg, SearchFlights, SearchHotels,
    getHotelIDsByCity, getHotelOffers, doRequest, getToken, refreshToken.
  at_most.
Qed.

Lemma SearchHandler_clock (client : option AmadeusClient) (req : SearchRequest) (n : Z) :
  AtMost isTimeNow 6 (SearchHandler client req n).
Proof.
  unfold SearchHandler, flightLeg, hotelLeg, SearchFlights, SearchHotels,
    getHotelIDsByCity, getHotelOffers, doRequest, getToken, refreshToken.
  at_most.
Qed.

Lemma SearchHandler_asks_once (client : option AmadeusClient) (req : SearchRequest) (n : Z) :
  AtMost isGetRecommendations 1 (SearchHandler client req n).
Proof.
  unfold SearchHandler, flightLeg, hotelLeg, SearchFlights, SearchHotels,
    getHotelIDsByCity, getHotelOffers, doRequest, getToken, refreshToken.
  at_most.
Qed.
End CallBudget.

(** X12: a search never retries: whatever the world answers, it sends at most
    three requests to the marketplace (one for flights, two for hotels), makes
    at most three token exchanges, reads the clock at most six times and asks
    for a recommendation exactly once. *)
Theorem search_call_budget `{GoLib} (w : World) (client : option AmadeusClient)
    (req : SearchRequest) (numNights : Z) :
  let tr := snd (run w [] (SearchHandler client req numNights)) in
  (countCalls isAmadeusDo tr <= 3)%nat
  /\ (countCalls isTokenPost tr <= 3)%nat
  /\ (countCalls isTimeNow tr <= 6)%nat
  /\ countCalls isGetRecommendations tr = 1%nat.
Proof.
  cbv zeta.
  pose proof (AtMost_run _ _ _ (SearchHandler_requests client req numNights) w []) as A.
  pose proof (AtMost_run _ _ _ (SearchHandler_posts client req numNights) w []) as B.
  pose proof (AtMost_run _ _ _ (SearchHandler_clock client req numNights) w []) as C.
  pose proof (AtMost_run _ _ _ (SearchHandler_asks_once client req numNights) w []) as D.
  cbn in A, B, C, D.
  repeat split; try assumption.
  apply Nat.le_antisymm; [exact D|].
  rewrite run_SearchHandler. cbn [snd]. rewrite countCalls_app.
  unfold countCalls at 2. cbn. lia.
Qed.

(** Walks a program tree, keeping what is known about the answers. *)
Ltac obeys_step close :=
  lazymatch goal with
  | |- Obeys _ _ _ (Ret _) => apply ObeysRet
  | |- Obeys _ _ _ (Do _ _) => apply ObeysDo; intros ? ?
  | |- Obeys _ _ _ (if ?b then _ else _) =>
      let E := fresh "E" in destruct b eqn:E; try solve [close]
  | |- Obeys _ _ _ (match ?x with _ => _ end) => destruct x
  | |- Obeys _ _ _ (bind ?p _) =>
      let h := bind_head p in
      lazymatch h with
      | Ret _ => cbn [bind]
      | Do _ _ => cbn [bind]
      | (if ?b then _ else _) =>
          let E := fresh "E" in destruct b eqn:E; try solve [close]
      | (match ?x with _ => _ end) => destruct x
      end
  end.

Ltac obeys close := repeat (obeys_step close).

Section ClientInvariants.
Context `{GoLib}.

Lemma SearchHandler_identity (client : option AmadeusClient) (req : SearchRequest) (n : Z) :
  Obeys anyAnswer anyCall (keepsIdentity client) (SearchHandler client req n).
Proof.
  unfold SearchHandler, flightLeg, hotelLeg, SearchFlights, SearchHotels,
    getHotelIDsByCity, getHotelOffers, doRequest, getToken, refreshToken.
  obeys fail.
  all: first [exact I | cbn; repeat split].
Qed.
End ClientInvariants.

(** X13: a search never changes who the client is: when there is a client, the
    client left behind has the same id, secret and base URL, whatever the
    world answers; only the token cache may differ.  Without a client none
    appears. *)
Theorem search_keeps_client_identity `{GoLib} (w : World)
    (client : option AmadeusClient) (req : SearchRequest) (numNights : Z) :
  match client, fst (fst (run w [] (SearchHandler client req numNights))) with
  | Some c, Some c' =>
      clientID c' = clientID c /\ clientSecret c' = clientSecret c
      /\ baseURL c' = baseURL c
  | None, None => True
  | _, _ => False
  end.
Proof.
  pose proof (Obeys_run anyAnswer anyCall _ _ w (fun _ _ _ => I)
                (SearchHandler_identity client req numNights) []) as (K & _).
  unfold keepsIdentity, sameIdentity in K. destruct client; exact K.
Qed.

Section ValidToken.
Context `{GoLib}.
Variable c : AmadeusClient.
Hypothesis Cached : accessToken c <> "".

Ltac fresh_token :=
  idtac;
  match goal with
  | E : (timeAfter ?r (tokenExpiry c) || String.eqb (accessToken c) "") = true,
    L : clockUpTo (tokenExpiry c) Z TimeNow ?r |- _ =>
      exfalso; cbn in L; apply orb_true_iff in E; destruct E as [E|E];
      [unfold timeAfter in E; apply Z.gtb_lt in E; lia
      | apply String.eqb_eq in E; exact (Cached E)]
  end.

Lemma SearchHandler_uses_cache (req : SearchRequest) (n : Z) :
  Obeys (clockUpTo (tokenExpiry c)) (usesCachedToken (accessToken c))
        (fun res : option AmadeusClient * SearchResponse => fst res = Some c)
        (SearchHandler (Some c) req n).
Proof.
  unfold SearchHandler, flightLeg, hotelLeg, SearchFlights, SearchHotels,
    getHotelIDsByCity, getHotelOffers, doRequest, getToken, refreshToken.
  obeys fresh_token.
  all: first [exact I | reflexivity].
Qed.
End ValidToken.

(** X14: while the cached token is non-empty and the clock has not passed its
    stored expiry, a whole search makes no token exchange, every marketplace
    request carries the cached token, and the client is left as it was. *)
Theorem search_reuses_valid_token `{GoLib} (w : World) (c : AmadeusClient)
    (req : SearchRequest) (numNights : Z) :
  accessToken c <> "" ->
  (forall hist, w hist Z TimeNow <= tokenExpiry c) ->
  let r := run w [] (SearchHandler (Some c) req numNights) in
  fst (fst r) = Some c
  /\ Forall (usesCachedToken (accessToken c)) (snd r)
  /\ countCalls isTokenPost (snd r) = 0%nat.
Proof.
  intros Cached Clock. cbv zeta.
  assert (Hw : forall hist R (call : Call R),
             clockUpTo (tokenExpiry c) R call (w hist R call)).
  { intros hist R call. destruct call; cbn; auto. }
  destruct (Obeys_run _ _ _ _ w Hw (SearchHandler_uses_cache c Cached req numNights) [])
    as (K & tr & E & All).
  cbn [app] in E. rewrite E.
  split; [exact K|]. split; [exact All|].
  unfold countCalls. clear E.
  induction All as [|e tr He _ IH]; [reflexivity|].
  cbn [filter]. destruct e as [R call r]. destruct call; cbn in He |- *; try exact IH.
  contradiction.
Qed.

Lemma search_reuses_valid_token_witness :
  let c := mkClient "id" "secret" "https://test.api.amadeus.com" "tok-A" (5 * Second) in
  let r := run Example.liveWorld []
             (@SearchHandler Example.lib (Some c) Example.request 7) in
  fst (fst r) = Some c
  /\ countCalls isTokenPost (snd r) = 0%nat
  /\ countCalls isAmadeusDo (snd r) = 3%nat
  /\ Source (snd (fst r)) = "live".
Proof.
  cbv zeta.
  destruct (@search_reuses_valid_token Example.lib Example.liveWorld
              (mkClient "id" "secret" "https://test.api.amadeus.com" "tok-A" (5 * Second))
              Example.request 7) as (K & _ & P).
  - discriminate.
  - intros hist. vm_compute. discriminate.
  - split; [exact K|]. split; [exact P|]. split; vm_compute; reflexivity.
Defined.

(** ** Token failures *)

Lemma getToken_outcome `{GoLib} (c : AmadeusClient) :
  Obeys anyAnswer anyCall
        (fun res : AmadeusClient * Result string =>
           match snd res with
           | Err _ => fst res = c
           | Ok token => token = accessToken (fst res)
           end)
        (getToken c).
Proof.
  unfold getToken, refreshToken.
  obeys fail.
  all: first [exact I | reflexivity].
Qed.

Lemma getToken_sends_nothing `{GoLib} (c : AmadeusClient) :
  AtMost isAmadeusDo 0 (getToken c).
Proof. unfold getToken, refreshToken. at_most. Qed.

(** X15: when [getToken] fails the client is handed back untouched, [doRequest]
    sends nothing to the marketplace and reports "auth failed: ...", and
    [SearchFlights] of a configured client reports
    "flight search failed: auth failed: ..." after the same calls. *)
Theorem token_failure_stops_request `{GoLib} (w : World) (hist : list Event)
    (c : AmadeusClient) (method path : string) (body : option string) (e : string) :
  snd (fst (run w hist (getToken c))) = Err e ->
  fst (fst (run w hist (getToken c))) = c
  /\ run w hist (doRequest c method path body)
     = ((c, Err ("auth failed: " ++ e)), snd (run w hist (getToken c)))
  /\ countCalls isAmadeusDo (snd (run w hist (doRequest c method path body)))
     = countCalls isAmadeusDo hist
  /\ (clientID c <> "" ->
      forall origin destination departureDate returnDate adults,
        run w hist (SearchFlights c origin destination departureDate returnDate adults)
        = ((c, Err ("flight search failed: auth failed: " ++ e)),
           snd (run w hist (getToken c)))).
Proof.
  intros Fail.
  pose proof (Obeys_run anyAnswer anyCall _ _ w (fun _ _ _ => I)
                (getToken_outcome c) hist) as (Out & _).
  rewrite Fail in Out.
  assert (Run : forall method path body,
             run w hist (doRequest c method path body)
             = ((c, Err ("auth failed: " ++ e)), snd (run w hist (getToken c)))).
  { intros method' path' body'. unfold doRequest. rewrite run_bind.
    destruct (run w hist (getToken c)) as [[c' tok] h'].
    cbn [fst snd] in *. subst c' tok. reflexivity. }
  split; [exact Out|]. split; [apply Run|]. split.
  - rewrite Run. cbn [snd].
    apply Nat.le_antisymm.
    + pose proof (AtMost_run _ _ _ (getToken_sends_nothing c) w hist). lia.
    + apply run_count_grows.
  - intros HasId origin destination departureDate returnDate adults.
    unfold SearchFlights. apply String.eqb_neq in HasId. rewrite HasId.
    cbv zeta. rewrite run_bind, Run. reflexivity.
Qed.

(** The token endpoint answers 401: no request for flights leaves. *)
Lemma token_failure_stops_request_witness :
  let w := Example.world 0 (HttpResp 401 "denied") (Example.ok "flight-offers")
             (Example.ok "hotel-list") (Example.ok "hotel-offers") Example.noKey in
  run w [] (@doRequest Example.lib Example.client "GET" "/v2/shopping/flight-offers" None)
  = ((Example.client, Err ("auth failed: " ++ "token request failed (401): denied")),
     snd (run w [] (@getToken Example.lib Example.client))).
Proof.
  cbv zeta.
  apply (proj1 (proj2 (@token_failure_stops_request Example.lib
                         (Example.world 0 (HttpResp 401 "denied")
                            (Example.ok "flight-offers") (Example.ok "hotel-list")
                            (Example.ok "hotel-offers") Example.noKey)
                         [] Example.client
                         "GET" "/v2/shopping/flight-offers" None
                         "token request failed (401): denied" eq_refl))).
Defined.

(** ** A lifetime shorter than the margin *)

Lemma run_refreshToken_ok `{GoLib} (w : World) (c : AmadeusClient)
    (body : string) (r : tokenResponse) :
  let post := TokenPost (baseURL c ++ "/v1/security/oauth2/token")
                (clientID c) (clientSecret c) in
  w [] HttpResult post = HttpResp 200 body ->
  Unmarshal_token body = Some r ->
  - 9000000000 <= ExpiresIn r <= 9000000000 ->
  fst (run w [] (refreshToken c))
  = (storeToken c (AccessToken r)
       (w [Ev post (HttpResp 200 body)] Z TimeNow + (ExpiresIn r - 30) * Second),
     None).
Proof.
  intros post Hpost Hjson Hrange.
  unfold refreshToken. cbn [run app]. fold post. rewrite Hpost.
  change (negb (200 =? 200)) with false. cbv iota. rewrite Hjson.
  cbn [run app fst]. rewrite seconds_small by lia. reflexivity.
Qed.

(** X16: when the provider grants a lifetime below the 30-second margin (0 when
    the field is missing from its answer; not so negative that the count of
    nanoseconds leaves the 64-bit range), the token is stored already
    expired: as soon as the clock has not gone backwards, the next [getToken]
    exchanges credentials again. *)
Theorem short_lifetime_is_never_reused `{GoLib} (w0 : World) (c0 : AmadeusClient)
    (body : string) (r : tokenResponse) :
  let post := TokenPost (baseURL c0 ++ "/v1/security/oauth2/token")
                (clientID c0) (clientSecret c0) in
  w0 [] HttpResult post = HttpResp 200 body ->
  Unmarshal_token body = Some r ->
  - 9000000000 <= ExpiresIn r < 30 ->
  let issued_at := w0 [Ev post (HttpResp 200 body)] Z TimeNow in
  let c := fst (fst (run w0 [] (refreshToken c0))) in
  forall w : World,
    issued_at <= w [] Z TimeNow ->
    refreshAttempted (snd (run w [] (getToken c))) = true.
Proof.
  intros post Hpost Hjson Hrange issued_at c w Later.
  pose proof (run_refreshToken_ok w0 c0 body r Hpost Hjson ltac:(lia)) as Run.
  fold post in Run. fold issued_at in Run.
  apply getToken_refresh_iff. right.
  unfold c. rewrite Run. cbn [fst tokenExpiry storeToken].
  unfold Second. lia.
Qed.

Lemma short_lifetime_is_never_reused_witness :
  let w0 := Example.world (1000 * Second) (Example.ok "token-10")
              (TransportErr "offline") (TransportErr "offline")
              (TransportErr "offline") Example.noKey in
  let c := fst (fst (run w0 [] (@refreshToken shortLivedLib Example.client))) in
  refreshAttempted (snd (run (Example.clockAt 1000) [] (@getToken shortLivedLib c))) = true.
Proof.
  cbv zeta.
  apply (@short_lifetime_is_never_reused shortLivedLib
           (Example.world (1000 * Second) (Example.ok "token-10")
              (TransportErr "offline") (TransportErr "offline")
              (TransportErr "offline") Example.noKey)
           Example.client "token-10" (mkTokenResponse "tok-B" 10) eq_refl eq_refl).
  - simpl. lia.
  - vm_compute. discriminate.
Defined.

(** ** Start-up and the unconfigured client *)

Lemma run_SearchFlights_unconfigured `{GoLib} (w : World) (hist : list Event)
    (c : AmadeusClient) (o d dd rd : string) (adults : Z) :
  clientID c = "" ->
  run w hist (SearchFlights c o d dd rd adults)
  = ((c, Err "amadeus not configured"), hist).
Proof. intros E. unfold SearchFlights. rewrite E. reflexivity. Qed.

Lemma run_SearchHotels_unconfigured `{GoLib} (w : World) (hist : list Event)
    (c : AmadeusClient) (city ci co : string) (adults : Z) :
  clientID c = "" ->
  run w hist (SearchHotels c city ci co adults)
  = ((c, Err "amadeus not configured"), hist).
Proof. intros E. unfold SearchHotels. rewrite E. reflexivity. Qed.

Lemma refreshToken_identity `{GoLib} (c : AmadeusClient) :
  Obeys anyAnswer anyCall
        (fun res : AmadeusClient * option string =>
           sameIdentity c (fst res)
           /\ match snd res with
              | Some _ => fst res = c
              | None => True
              end)
        (refreshToken c).
Proof.
  unfold refreshToken. obeys fail.
  all: first [exact I | cbn; repeat split].
Qed.

(** X17: [InitAmadeus] always yields a client; it holds the id and the secret of
    the environment, the test base URL when AMADEUS_ENV is unset or "test" and
    the production one otherwise; when the id or the secret is missing
    start-up makes no call at all and the token cache stays empty. *)
Theorem InitAmadeus_client `{GoLib} (w : World) (Getenv : string -> string) :
  let r := run w [] (InitAmadeus Getenv) in
  clientID (fst r) = Getenv "AMADEUS_CLIENT_ID"
  /\ clientSecret (fst r) = Getenv "AMADEUS_CLIENT_SECRET"
  /\ baseURL (fst r)
     = (if String.eqb (Getenv "AMADEUS_ENV") "" || String.eqb (Getenv "AMADEUS_ENV") "test"
        then "https://test.api.amadeus.com" else "https://api.amadeus.com")
  /\ (Getenv "AMADEUS_CLIENT_ID" = "" \/ Getenv "AMADEUS_CLIENT_SECRET" = "" ->
      snd r = [] /\ accessToken (fst r) = "").
Proof.
  cbv zeta. unfold InitAmadeus.
  set (c0 := {| clientID := Getenv "AMADEUS_CLIENT_ID";
                clientSecret := Getenv "AMADEUS_CLIENT_SECRET";
                baseURL := if String.eqb (Getenv "AMADEUS_ENV") ""
                              || String.eqb (Getenv "AMADEUS_ENV") "test"
                           then "https://test.api.amadeus.com"
                           else "https://api.amadeus.com";
                accessToken := ""; tokenExpiry := zeroInstant |}).
  change (String.eqb (clientID c0) "" || String.eqb (clientSecret c0) "")
    with (String.eqb (Getenv "AMADEUS_CLIENT_ID") ""
          || String.eqb (Getenv "AMADEUS_CLIENT_SECRET") "").
  destruct (String.eqb (Getenv "AMADEUS_CLIENT_ID") ""
            || String.eqb (Getenv "AMADEUS_CLIENT_SECRET") "") eqn:Missing.
  - cbn [run fst snd]. repeat split; reflexivity.
  - rewrite run_bind.
    pose proof (Obeys_run anyAnswer anyCall _ _ w (fun _ _ _ => I)
                  (refreshToken_identity c0) []) as ((Id & _) & _).
    destruct (run w [] (refreshToken c0)) as [[c' err] h']. cbn [fst snd run] in *.
    destruct Id as (A & B & C). rewrite A, B, C.
    split; [reflexivity|]. split; [reflexivity|]. split; [reflexivity|].
    intros Empty. exfalso. apply orb_false_iff in Missing as (M1 & M2).
    apply String.eqb_neq in M1, M2. tauto.
Qed.

Lemma InitAmadeus_client_witness :
  let r := run Example.liveWorld [] (@InitAmadeus Example.lib (envOf "production" "id" "")) in
  snd r = [] /\ accessToken (fst r) = "" /\ baseURL (fst r) = "https://api.amadeus.com".
Proof.
  cbv zeta.
  destruct (@InitAmadeus_client Example.lib Example.liveWorld (envOf "production" "id" ""))
    as (_ & _ & U & Quiet).
  destruct Quiet as (Q1 & Q2); [right; reflexivity|].
  split; [exact Q1|]. split; [exact Q2|]. exact U.
Defined.

(** X18: with AMADEUS_CLIENT_ID unset, start-up followed by any search talks to
    neither the token endpoint nor the marketplace nor the clock: the only
    call is the recommendation request; flights and hotels are the generated
    ones and the tag is [estimated]. *)
Theorem unconfigured_search_is_offline `{GoLib} (w : World) (Getenv : string -> string)
    (req : SearchRequest) (numNights : Z) :
  Getenv "AMADEUS_CLIENT_ID" = "" ->
  let r := run w [] (amadeusClient <- InitAmadeus Getenv ;;
                     SearchHandler (Some amadeusClient) req numNights) in
  let call := GetRecommendations (Budget req) (Origin req) (Destination req)
                (DepartureDate req) (ReturnDate req) (Passengers req)
                (flightsFallback req) (GenerateHotelsFallback (Destination req)) true in
  snd r = [Ev call (w [] (Result string) call)]
  /\ Flights (snd (fst r)) = flightsFallback req
  /\ Hotels (snd (fst r)) = GenerateHotelsFallback (Destination req)
  /\ Source (snd (fst r)) = "estimated".
Proof.
  intros NoId. cbv zeta. rewrite run_bind.
  assert (Init : exists c, clientID c = "" /\ run w [] (InitAmadeus Getenv) = (c, [])).
  { unfold InitAmadeus. rewrite !NoId. cbn [clientID String.eqb orb run].
    eexists. split; [|reflexivity]. reflexivity. }
  destruct Init as (c & Cid & ->). cbn [fst snd].
  rewrite run_SearchHandler. cbn [fst snd Flights Hotels Source].
  rewrite run_flightLeg_some. unfold flightLookup.
  rewrite run_SearchFlights_unconfigured by exact Cid.
  cbn [fst snd liveOr resolvedLive negb].
  rewrite run_hotelLeg_skip by (right; reflexivity).
  cbn [fst snd app]. repeat split.
Qed.

Lemma unconfigured_search_is_offline_witness :
  let r := run Example.liveWorld []
             (amadeusClient <- @InitAmadeus Example.lib (envOf "" "" "") ;;
              @SearchHandler Example.lib (Some amadeusClient) Example.request 7) in
  List.length (snd r) = 1%nat /\ Source (snd (fst r)) = "estimated".
Proof.
  cbv zeta.
  destruct (@unconfigured_search_is_offline Example.lib Example.liveWorld
              (envOf "" "" "") Example.request 7 eq_refl) as (T & _ & _ & S).
  rewrite T. split; [reflexivity | exact S].
Defined.

(** X19: only the client id gates the marketplace.  With the id set and the
    secret missing, start-up makes no call, yet the flight lookup of every
    search reads the clock and posts the id with an empty secret to the token
    endpoint. *)
Theorem missing_secret_still_posts `{GoLib} (w : World) (Getenv : string -> string)
    (req : SearchRequest) :
  Getenv "AMADEUS_CLIENT_ID" <> "" ->
  Getenv "AMADEUS_CLIENT_SECRET" = "" ->
  let r0 := run w [] (InitAmadeus Getenv) in
  snd r0 = []
  /\ exists now resp rest,
       snd (run w [] (flightLookup (fst r0) req))
       = Ev TimeNow now
         :: Ev (TokenPost (baseURL (fst r0) ++ "/v1/security/oauth2/token")
                  (Getenv "AMADEUS_CLIENT_ID") "") resp
         :: rest.
Proof.
  intros HasId NoSecret. cbv zeta.
  assert (Init : exists c,
             clientID c = Getenv "AMADEUS_CLIENT_ID" /\ clientSecret c = ""
             /\ accessToken c = "" /\ run w [] (InitAmadeus Getenv) = (c, [])).
  { unfold InitAmadeus. cbv zeta. cbn [clientID clientSecret]. rewrite !NoSecret.
    cbn [String.eqb]. rewrite orb_true_r. cbn [run].
    eexists. split; [|split; [|split; [|reflexivity]]]; reflexivity. }
  destruct Init as (c & Cid & Csec & Ctok & ->). cbn [fst snd].
  split; [reflexivity|].
  unfold flightLookup, SearchFlights.
  rewrite Cid. apply String.eqb_neq in HasId. rewrite HasId.
  unfold doRequest, getToken, refreshToken. rewrite Ctok, Csec, Cid.
  cbn [bind run app String.eqb]. rewrite orb_true_r. cbn [bind run app].
  match goal with
  | |- exists now resp rest, snd (run w ?h ?p) = _ =>
      destruct (run_extends w p h) as (rest & ->)
  end.
  do 3 eexists. reflexivity.
Qed.

Lemma missing_secret_still_posts_witness :
  exists now resp rest,
    snd (run Example.liveWorld []
           (@flightLookup Example.lib
              (fst (run Example.liveWorld []
                      (@InitAmadeus Example.lib (envOf "" "id" ""))))
              Example.request))
    = Ev TimeNow now
      :: Ev (TokenPost "https://test.api.amadeus.com/v1/security/oauth2/token" "id" "") resp
      :: rest.
Proof.
  apply (@missing_secret_still_posts Example.lib Example.liveWorld (envOf "" "id" "")
           Example.request); [discriminate | reflexivity].
Defined.

(** ** The two stages of the hotel search *)

(** X20: [SearchHotels] of a configured client first asks for the hotel ids.  An
    error of that stage is reported as "hotel list failed: ..."; an empty list
    of ids is the error "no hotels found for city ..." and the offers are
    never requested; otherwise the offers are requested for the first 20 ids
    at most, in the state the first stage left. *)
Theorem SearchHotels_stages `{GoLib} (w : World) (hist : list Event) (c : AmadeusClient)
    (cityCode checkIn checkOut : string) (adults : Z) :
  clientID c <> "" ->
  let r1 := run w hist (getHotelIDsByCity c cityCode) in
  match snd (fst r1) with
  | Err e =>
      run w hist (SearchHotels c cityCode checkIn checkOut adults)
      = ((fst (fst r1), Err ("hotel list failed: " ++ e)), snd r1)
  | Ok [] =>
      run w hist (SearchHotels c cityCode checkIn checkOut adults)
      = ((fst (fst r1), Err ("no hotels found for city " ++ cityCode)), snd r1)
  | Ok hotelIDs =>
      run w hist (SearchHotels c cityCode checkIn checkOut adults)
      = run w (snd r1)
          (getHotelOffers (fst (fst r1)) (firstn 20 hotelIDs) checkIn checkOut adults)
      /\ (List.length (firstn 20 hotelIDs) <= 20)%nat
  end.
Proof.
  intros HasId. cbv zeta. unfold SearchHotels.
  apply String.eqb_neq in HasId. rewrite HasId. rewrite run_bind.
  destruct (run w hist (getHotelIDsByCity c cityCode)) as [[c1 ids] h1].
  cbn [fst snd]. destruct ids as [[|id ids]|e]; try reflexivity.
  rewrite len_cons_eqb0. split; [|apply firstn_le_length].
  destruct (Z.gtb_spec (Z.of_nat (List.length (id :: ids))) 20) as [Gt|Le].
  - reflexivity.
  - rewrite firstn_all2 by lia. reflexivity.
Qed.

Lemma SearchHotels_stages_witness :
  let w := Example.world 0 (Example.ok "token-1799") (Example.ok "flight-offers")
             (Example.ok "no-data") (Example.ok "hotel-offers") Example.noKey in
  snd (fst (run w [] (@SearchHotels Example.lib Example.client "LHR"
                        "2025-03-01" "2025-03-08" 1)))
  = Err "no hotels found for city LHR".
Proof.
  cbv zeta.
  pose proof (@SearchHotels_stages Example.lib
                (Example.world 0 (Example.ok "token-1799") (Example.ok "flight-offers")
                   (Example.ok "no-data") (Example.ok "hotel-offers") Example.noKey)
                [] Example.client "LHR" "2025-03-01" "2025-03-08" 1) as S.
  cbv zeta in S.
  assert (Ids : snd (fst (run (Example.world 0 (Example.ok "token-1799")
                                 (Example.ok "flight-offers") (Example.ok "no-data")
                                 (Example.ok "hotel-offers") Example.noKey) []
                            (@getHotelIDsByCity Example.lib Example.client "LHR")))
                = Ok []) by (vm_compute; reflexivity).
  rewrite Ids in S. rewrite S; [reflexivity | discriminate].
Defined.

(** ** What the recommendation is asked about *)

(** X21: the recommendation request is the last call of a search and the only
    one of its kind; it is made about exactly the flights and hotels of the
    outcome, with the estimated flag set exactly when the tag is
    [estimated]; the summary is the text it returns or, on error, the
    sentence of [FallbackRecommendation] on those lists. *)
Theorem recommendation_request_matches_outcome `{GoLib} (w : World)
    (client : option AmadeusClient) (req : SearchRequest) (numNights : Z) :
  let r := run w [] (SearchHandler client req numNights) in
  let out := snd (fst r) in
  exists tr ai,
    snd r
    = (tr ++ [Ev (GetRecommendations (Budget req) (Origin req) (Destination req)
                    (DepartureDate req) (ReturnDate req) (Passengers req)
                    (Flights out) (Hotels out) (String.eqb (Source out) "estimated"))
                 ai])%list
    /\ countCalls isGetRecommendations tr = 0%nat
    /\ AISummary out
       = match ai with
         | Ok text => text
         | Err _ =>
             FallbackRecommendation (Budget req) (Flights out) (Hotels out) numNights
         end.
Proof.
  cbv zeta.
  pose proof (AtMost_run _ _ _ (SearchHandler_asks_once client req numNights) w []) as Once.
  rewrite run_SearchHandler in *. cbn [fst snd Flights Hotels Source AISummary] in *.
  do 2 eexists. split; [|split].
  - f_equal. f_equal. f_equal.
    destruct (snd (fst (run w (snd (run w [] (flightLeg client req)))
                          (hotelLeg (fst (fst (fst (run w [] (flightLeg client req))))) req
                             (snd (fst (run w [] (flightLeg client req))))))));
      reflexivity.
  - rewrite countCalls_app in Once. unfold countCalls at 2 in Once. cbn in Once. lia.
  - reflexivity.
Qed.
